(** * The Windows launcher of ocr_server, [dist_tools/launcher.c]

    The launcher finds the directory of its own image, makes it the working
    directory, checks that the bundled interpreter is there, sets
    [PYTHONPATH], and starts the interpreter on [boot.py].

    The program is a straight line of calls to the operating system and the C
    runtime.  It is embedded here as a function in a small monad that threads
    the state of the process and reads the answers of the operating system
    from a record; the C strings are [string]s, the environment block is a
    finite map, the open handles are a finite set. *)

From Stdlib Require Import ZArith Ascii String.
From stdpp Require Import base tactics option list gmap strings pretty.

Local Open Scope Z_scope.

(** ** Constants of [windows.h] and [stdlib.h] *)

Definition MAX_PATH : nat := 260.
Definition _MAX_DRIVE : nat := 3.
Definition _MAX_DIR : nat := 256.
Definition _MAX_FNAME : nat := 256.
Definition _MAX_EXT : nat := 256.

Definition INVALID_FILE_ATTRIBUTES : Z := 4294967295.
Definition CREATE_NO_WINDOW : Z := 134217728.
Definition MB_OK : Z := 0.
Definition MB_ICONERROR : Z := 16.
Definition TRUE : Z := 1.
Definition FALSE : Z := 0.

(** ** C strings *)

(** Characters that a literal of this file cannot hold. *)
Definition dquote : ascii := "034"%char.
Definition newline : ascii := "010"%char.
Definition q : string := String dquote EmptyString.
Definition nl : string := String newline EmptyString.

Definition is_slash (c : ascii) : bool :=
  Ascii.eqb c "/"%char || Ascii.eqb c "\"%char.

Fixpoint last_char (s : string) : option ascii :=
  match s with
  | EmptyString => None
  | String c EmptyString => Some c
  | String _ s' => last_char s'
  end.

Definition ends_with_slash (s : string) : bool :=
  match last_char s with
  | Some c => is_slash c
  | None => false
  end.

Fixpoint has_char (c : ascii) (s : string) : bool :=
  match s with
  | EmptyString => false
  | String d s' => Ascii.eqb c d || has_char c s'
  end.

(** *** [sprintf]

    The directives the launcher uses are [%s] and [%d].  The [%d] of the
    launcher receives a [DWORD]; it is printed as the [int] with the same 32
    bits. *)

Inductive fmt_arg : Type :=
  | ArgS (s : string)
  | ArgD (n : Z).

Definition as_int (n : Z) : Z := (n + 2 ^ 31) mod 2 ^ 32 - 2 ^ 31.

Fixpoint format (fmt : string) (args : list fmt_arg) : string :=
  match fmt with
  | EmptyString => EmptyString
  | String c rest =>
      if Ascii.eqb c "%"%char then
        match rest with
        | String d rest' =>
            if Ascii.eqb d "s"%char then
              match args with
              | ArgS s :: args' => s +:+ format rest' args'
              | _ => format rest' (tail args)
              end
            else if Ascii.eqb d "d"%char then
              match args with
              | ArgD n :: args' => pretty (as_int n) +:+ format rest' args'
              | _ => format rest' (tail args)
              end
            else String c (String d (format rest' args))
        | EmptyString => String c EmptyString
        end
      else String c (format rest args)
  end.

(** *** [_splitpath] and [_makepath]

    The two routines of the C runtime, as the runtime's reference
    implementation has them: a drive is one character and a colon; the
    directory runs up to and including the last slash of either kind; the
    extension starts at the last dot when that dot is in the file name; a
    component longer than its buffer is cut to the buffer. *)

(** Index one past the last slash of [s]; [0] plays the null pointer. *)
Fixpoint last_slash (s : string) : nat :=
  match s with
  | EmptyString => O
  | String c s' =>
      match last_slash s' with
      | O => if is_slash c then 1%nat else O
      | S n => S (S n)
      end
  end.

(** Index of the last dot of [s]. *)
Fixpoint last_dot (s : string) : option nat :=
  match s with
  | EmptyString => None
  | String c s' =>
      match last_dot s' with
      | Some n => Some (S n)
      | None => if Ascii.eqb c "."%char then Some O else None
      end
  end.

Record path_parts : Type := {
  pp_drive : string;
  pp_dir : string;
  pp_fname : string;
  pp_ext : string
}.

Definition _splitpath (path : string) : path_parts :=
  let '(drive, path) :=
    match path with
    | String c0 (String c1 rest) =>
        if Ascii.eqb c1 ":"%char
        then (String c0 (String c1 EmptyString), rest)
        else (EmptyString, path)
    | _ => (EmptyString, path)
    end in
  let slash := last_slash path in
  let dir := substring 0 (Nat.min slash (_MAX_DIR - 1)) path in
  let len := String.length path in
  match last_dot path with
  | Some dot =>
      if (slash <=? dot)%nat then
        {| pp_drive := drive; pp_dir := dir;
           pp_fname := substring slash (Nat.min (dot - slash) (_MAX_FNAME - 1)) path;
           pp_ext := substring dot (Nat.min (len - dot) (_MAX_EXT - 1)) path |}
      else
        {| pp_drive := drive; pp_dir := dir;
           pp_fname := substring slash (Nat.min (len - slash) (_MAX_FNAME - 1)) path;
           pp_ext := EmptyString |}
  | None =>
      {| pp_drive := drive; pp_dir := dir;
         pp_fname := substring slash (Nat.min (len - slash) (_MAX_FNAME - 1)) path;
         pp_ext := EmptyString |}
  end.

(** [fname] and [ext] may be [NULL]. *)
Definition _makepath (drive dir : string) (fname ext : option string) : string :=
  (match drive with
   | String c _ => String c ":"
   | EmptyString => EmptyString
   end) +:+
  (match dir with
   | EmptyString => EmptyString
   | _ => if ends_with_slash dir then dir else dir +:+ "\"
   end) +:+
  (match fname with
   | Some f => f
   | None => EmptyString
   end) +:+
  (match ext with
   | Some (String c e) =>
       if Ascii.eqb c "."%char then String c e else String "."%char (String c e)
   | _ => EmptyString
   end).

(** ** The process and the operating system *)

Inductive Mode : Type := Release | Debug.

(** What the user sees: a modal dialog, a line on standard output, a command
    handed to the command interpreter ([system("pause")]). *)
Inductive Output : Type :=
  | Dialog (text caption : string) (uType : Z)
  | Stdout (s : string)
  | System (command : string).

(** A process made by [CreateProcess], with what it was given. *)
Record Child : Type := {
  ch_app : option string;
  ch_cmdline : string;
  ch_inherit : Z;
  ch_flags : Z;
  ch_env : gmap string string;
  ch_cwd : string
}.

(** The state of the launcher's process.  [p_waited] lists the handles on
    which a wait has returned. *)
Record Proc : Type := {
  p_cwd : string;
  p_env : gmap string string;
  p_last_error : Z;
  p_handles : gset Z;
  p_children : list Child;
  p_out : list Output;
  p_waited : list Z
}.

Inductive answer (A : Type) : Type :=
  | Succeeds (a : A)
  | Fails (code : Z).
Arguments Succeeds {A} a.
Arguments Fails {A} code.

(** The answers of the operating system.  [os_child h] is the exit status of
    the process behind handle [h], [None] when that process never exits. *)
Record OS : Type := {
  os_GetModuleFileName : answer string;
  os_SetCurrentDirectory : string -> answer unit;
  os_GetFileAttributes : string -> answer Z;
  os_putenv : string -> bool;
  os_CreateProcess : Child -> answer (Z * Z);
  os_child : Z -> option Z
}.

(** The arguments of the entry point: [WinMain]'s or [main]'s. *)
Inductive Args : Type :=
  | WinMainArgs (hInstance hPrevInstance : Z) (lpCmdLine : string) (nCmdShow : Z)
  | MainArgs (argc : Z) (argv : list string).

(** A computation ends with a value, or does not end: it waits for ever, or it
    writes past the end of the named buffer, after which C says nothing. *)
Inductive Stop : Type :=
  | Blocked
  | Overrun (buffer : string).

Inductive Result (A : Type) : Type :=
  | Done (a : A) (p : Proc)
  | Stuck (s : Stop) (p : Proc).
Arguments Done {A} a p.
Arguments Stuck {A} s p.

Definition M (A : Type) : Type := OS -> Proc -> Result A.

Definition ret {A} (a : A) : M A := fun _ p => Done a p.

Definition bind {A B} (c : M A) (k : A -> M B) : M B :=
  fun os p =>
    match c os p with
    | Done a p' => k a os p'
    | Stuck s p' => Stuck s p'
    end.

Declare Scope launcher_scope.
Delimit Scope launcher_scope with launcher.
Notation "x <- c ;; k" := (bind c (fun x => k))
  (at level 100, c at next level, k at level 200, right associativity,
   only parsing) : launcher_scope.
Notation "c ;;; k" := (bind c (fun _ => k))
  (at level 100, k at level 200, right associativity, only parsing)
  : launcher_scope.

Definition exit_code {A} (r : Result A) : option A :=
  match r with
  | Done a _ => Some a
  | Stuck _ _ => None
  end.

Definition final {A} (r : Result A) : Proc :=
  match r with
  | Done _ p => p
  | Stuck _ p => p
  end.

(** *** Updates of the process state *)

Definition set_cwd (d : string) (p : Proc) : Proc :=
  {| p_cwd := d; p_env := p_env p; p_last_error := p_last_error p;
     p_handles := p_handles p; p_children := p_children p;
     p_out := p_out p; p_waited := p_waited p |}.

Definition set_env (e : gmap string string) (p : Proc) : Proc :=
  {| p_cwd := p_cwd p; p_env := e; p_last_error := p_last_error p;
     p_handles := p_handles p; p_children := p_children p;
     p_out := p_out p; p_waited := p_waited p |}.

Definition set_last_error (e : Z) (p : Proc) : Proc :=
  {| p_cwd := p_cwd p; p_env := p_env p; p_last_error := e;
     p_handles := p_handles p; p_children := p_children p;
     p_out := p_out p; p_waited := p_waited p |}.

Definition set_handles (h : gset Z) (p : Proc) : Proc :=
  {| p_cwd := p_cwd p; p_env := p_env p; p_last_error := p_last_error p;
     p_handles := h; p_children := p_children p;
     p_out := p_out p; p_waited := p_waited p |}.

Definition add_child (c : Child) (p : Proc) : Proc :=
  {| p_cwd := p_cwd p; p_env := p_env p; p_last_error := p_last_error p;
     p_handles := p_handles p; p_children := p_children p ++ [c];
     p_out := p_out p; p_waited := p_waited p |}.

Definition add_out (o : Output) (p : Proc) : Proc :=
  {| p_cwd := p_cwd p; p_env := p_env p; p_last_error := p_last_error p;
     p_handles := p_handles p; p_children := p_children p;
     p_out := p_out p ++ [o]; p_waited := p_waited p |}.

Definition add_waited (h : Z) (p : Proc) : Proc :=
  {| p_cwd := p_cwd p; p_env := p_env p; p_last_error := p_last_error p;
     p_handles := p_handles p; p_children := p_children p;
     p_out := p_out p; p_waited := p_waited p ++ [h] |}.

(** *** The calls of the launcher *)

Definition ERROR_INSUFFICIENT_BUFFER : Z := 122.

(** The count of characters copied and the buffer.  A path that does not fit
    is cut to [nSize - 1] characters and [nSize] is returned; a failure
    returns [0]. *)
Definition GetModuleFileName (nSize : nat) : M (Z * string) :=
  fun os p =>
    match os_GetModuleFileName os with
    | Succeeds path =>
        if (String.length path <? nSize)%nat
        then Done (Z.of_nat (String.length path), path) p
        else Done (Z.of_nat nSize, substring 0 (nSize - 1) path)
                  (set_last_error ERROR_INSUFFICIENT_BUFFER p)
    | Fails code => Done (0, EmptyString) (set_last_error code p)
    end.

Definition SetCurrentDirectory (path : string) : M Z :=
  fun os p =>
    match os_SetCurrentDirectory os path with
    | Succeeds _ => Done TRUE (set_cwd path p)
    | Fails code => Done FALSE (set_last_error code p)
    end.

Definition GetFileAttributes (path : string) : M Z :=
  fun os p =>
    match os_GetFileAttributes os path with
    | Succeeds attrs => Done attrs p
    | Fails code => Done INVALID_FILE_ATTRIBUTES (set_last_error code p)
    end.

(** [NAME=value] is cut at its first [=]. *)
Fixpoint split_assignment (s : string) : option (string * string) :=
  match s with
  | EmptyString => None
  | String c s' =>
      if Ascii.eqb c "="%char then Some (EmptyString, s')
      else match split_assignment s' with
           | Some (name, value) => Some (String c name, value)
           | None => None
           end
  end.

(** An empty value removes the variable.  The result is [0], or [-1] when the
    runtime could not make the assignment. *)
Definition _putenv (envstring : string) : M Z :=
  fun os p =>
    match split_assignment envstring with
    | Some (name, value) =>
        if os_putenv os envstring then
          match value with
          | EmptyString => Done 0 (set_env (delete name (p_env p)) p)
          | _ => Done 0 (set_env (<[name := value]> (p_env p)) p)
          end
        else Done (-1) p
    | None => Done (-1) p
    end.

(** The security attributes are [NULL] and the start-up information is zeroed
    in every call of the launcher; they are left out.  The result is the
    [BOOL] (an [int]) and the two handles of [PROCESS_INFORMATION], which stay zero on
    failure. *)
Definition CreateProcess (lpApplicationName : option string)
    (lpCommandLine : string) (bInheritHandles : Z) (dwCreationFlags : Z)
    (lpEnvironment : option (gmap string string))
    (lpCurrentDirectory : option string) : M (Z * (Z * Z)) :=
  fun os p =>
    let c := {| ch_app := lpApplicationName;
                ch_cmdline := lpCommandLine;
                ch_inherit := bInheritHandles;
                ch_flags := dwCreationFlags;
                ch_env := default (p_env p) lpEnvironment;
                ch_cwd := default (p_cwd p) lpCurrentDirectory |} in
    match os_CreateProcess os c with
    | Succeeds (hProcess, hThread) =>
        Done (TRUE, (hProcess, hThread))
             (set_handles ({[hProcess; hThread]} ∪ p_handles p) (add_child c p))
    | Fails code => Done (FALSE, (0, 0)) (set_last_error code p)
    end.

Definition GetLastError : M Z := fun _ p => Done (p_last_error p) p.

(** With [INFINITE] as the time-out. *)
Definition WaitForSingleObject (h : Z) : M Z :=
  fun os p =>
    match os_child os h with
    | Some _ => Done 0 (add_waited h p)
    | None => Stuck Blocked p
    end.

Definition CloseHandle (h : Z) : M Z :=
  fun _ p => Done TRUE (set_handles (p_handles p ∖ {[h]}) p).

(** The dialog is modal: the call returns, with [IDOK], when the user has
    closed it. *)
Definition MessageBox (text caption : string) (uType : Z) : M Z :=
  fun _ p => Done 1 (add_out (Dialog text caption uType) p).

Definition printf (fmt : string) (args : list fmt_arg) : M Z :=
  fun _ p =>
    let s := format fmt args in
    Done (Z.of_nat (String.length s)) (add_out (Stdout s) p).

(** The launcher's one command is [pause], which returns at a key press. *)
Definition system (command : string) : M Z :=
  fun _ p => Done 0 (add_out (System command) p).

(** [sprintf] into the buffer [name] of [size] bytes: the text and its
    terminator have to fit. *)
Definition sprintf (name : string) (size : nat) (fmt : string)
    (args : list fmt_arg) : M string :=
  fun _ p =>
    let s := format fmt args in
    if (String.length s <? size)%nat then Done s p
    else Stuck (Overrun name) p.

(** ** The launcher *)

Section Launcher.
Local Open Scope launcher_scope.

(** The body of the entry point of [src/dist_tools/launcher.c]; [m] is the
    build: [Debug] when [DEBUG_MODE] is defined.  The locals keep their
    names. *)
Definition launcher (m : Mode) (args : Args) : M Z :=
  (* Get the path of the current executable *)
  r <- GetModuleFileName MAX_PATH ;;
  let exePath := snd r in
  if fst r =? 0 then
    match m with
    | Debug =>
        printf ("Failed to get executable path." +:+ nl) [] ;;;
        system "pause"
    | Release =>
        MessageBox "Failed to get executable path." "Error"
                   (Z.lor MB_OK MB_ICONERROR)
    end ;;;
    ret 1
  else
  (* Split path to get directory *)
  let parts := _splitpath exePath in
  let cwd := _makepath (pp_drive parts) (pp_dir parts) None None in
  (* Set current directory to the executable's directory *)
  ok <- SetCurrentDirectory cwd ;;
  if ok =? 0 then
    match m with
    | Debug =>
        printf ("Failed to set current directory." +:+ nl) [] ;;;
        system "pause"
    | Release =>
        MessageBox "Failed to set current directory." "Error"
                   (Z.lor MB_OK MB_ICONERROR)
    end ;;;
    ret 1
  else
  (* Construct paths *)
  pythonPath <-
    match m with
    | Debug => sprintf "pythonPath" MAX_PATH "%sbase_env\python.exe" [ArgS cwd]
    | Release => sprintf "pythonPath" MAX_PATH "%sbase_env\pythonw.exe" [ArgS cwd]
    end ;;
  bootScript <- sprintf "bootScript" MAX_PATH "%sboot.py" [ArgS cwd] ;;
  (* Check if python exists *)
  attrs <- GetFileAttributes pythonPath ;;
  if attrs =? INVALID_FILE_ATTRIBUTES then
    msg <- sprintf "msg" 512
             ("Python environment not found at:" +:+ nl +:+ "%s" +:+ nl +:+ nl
              +:+ "Please ensure base_env is configured correctly.")
             [ArgS pythonPath] ;;
    match m with
    | Debug =>
        printf ("%s" +:+ nl) [ArgS msg] ;;;
        system "pause"
    | Release => MessageBox msg "Error" (Z.lor MB_OK MB_ICONERROR)
    end ;;;
    ret 1
  else
  (* Set PYTHONPATH environment variable *)
  pythonEnv <- sprintf "pythonEnv" (MAX_PATH * 4)
                 "PYTHONPATH=%ssite_packages;%s" [ArgS cwd; ArgS cwd] ;;
  _putenv pythonEnv ;;;
  (* Prepare command line *)
  cmdLine <- sprintf "cmdLine" (MAX_PATH * 4)
               (q +:+ "%s" +:+ q +:+ " " +:+ q +:+ "%s" +:+ q)
               [ArgS pythonPath; ArgS bootScript] ;;
  (* Create process *)
  let creationFlags :=
    match m with
    | Debug => 0
    | Release => CREATE_NO_WINDOW
    end in
  cp <- CreateProcess None cmdLine FALSE creationFlags None None ;;
  let pi_hProcess := fst (snd cp) in
  let pi_hThread := snd (snd cp) in
  if fst cp =? 0 then
    err <- GetLastError ;;
    msg <- sprintf "msg" 512
             ("Failed to launch process." +:+ nl +:+ "Error code: %d")
             [ArgD err] ;;
    match m with
    | Debug =>
        printf ("%s" +:+ nl) [ArgS msg] ;;;
        system "pause"
    | Release => MessageBox msg "Error" (Z.lor MB_OK MB_ICONERROR)
    end ;;;
    ret 1
  else
  (* Close process and thread handles. *)
  match m with
  | Debug => WaitForSingleObject pi_hProcess
  | Release => CloseHandle pi_hProcess
  end ;;;
  CloseHandle pi_hThread ;;;
  ret 0.

(** The two entry points of [src/dist_tools/launcher.c]: [main] in a debug
    build, [WinMain] otherwise. *)
Definition main (argc : Z) (argv : list string) : M Z :=
  launcher Debug (MainArgs argc argv).

Definition WinMain (hInstance hPrevInstance : Z) (lpCmdLine : string)
    (nCmdShow : Z) : M Z :=
  launcher Release (WinMainArgs hInstance hPrevInstance lpCmdLine nCmdShow).

End Launcher.

(** [src/dist_output/dist_tools/launcher.c], the copy shipped with the
    distribution: [WinMain] only. *)
Module dist_output.
Local Open Scope launcher_scope.

Definition WinMain (hInstance hPrevInstance : Z) (lpCmdLine : string)
    (nCmdShow : Z) : M Z :=
  r <- GetModuleFileName MAX_PATH ;;
  let exePath := snd r in
  if fst r =? 0 then
    MessageBox "Failed to get executable path." "Error"
               (Z.lor MB_OK MB_ICONERROR) ;;;
    ret 1
  else
  let parts := _splitpath exePath in
  let cwd := _makepath (pp_drive parts) (pp_dir parts) None None in
  ok <- SetCurrentDirectory cwd ;;
  if ok =? 0 then
    MessageBox "Failed to set current directory." "Error"
               (Z.lor MB_OK MB_ICONERROR) ;;;
    ret 1
  else
  pythonPath <- sprintf "pythonPath" MAX_PATH "%sbase_env\pythonw.exe" [ArgS cwd] ;;
  bootScript <- sprintf "bootScript" MAX_PATH "%sboot.py" [ArgS cwd] ;;
  attrs <- GetFileAttributes pythonPath ;;
  if attrs =? INVALID_FILE_ATTRIBUTES then
    msg <- sprintf "msg" 512
             ("Python environment not found at:" +:+ nl +:+ "%s" +:+ nl +:+ nl
              +:+ "Please ensure base_env is configured correctly.")
             [ArgS pythonPath] ;;
    MessageBox msg "Error" (Z.lor MB_OK MB_ICONERROR) ;;;
    ret 1
  else
  pythonEnv <- sprintf "pythonEnv" (MAX_PATH * 4)
                 "PYTHONPATH=%ssite_packages;%s" [ArgS cwd; ArgS cwd] ;;
  _putenv pythonEnv ;;;
  cmdLine <- sprintf "cmdLine" (MAX_PATH * 4)
               (q +:+ "%s" +:+ q +:+ " " +:+ q +:+ "%s" +:+ q)
               [ArgS pythonPath; ArgS bootScript] ;;
  cp <- CreateProcess None cmdLine FALSE CREATE_NO_WINDOW None None ;;
  let pi_hProcess := fst (snd cp) in
  let pi_hThread := snd (snd cp) in
  if fst cp =? 0 then
    err <- GetLastError ;;
    msg <- sprintf "msg" 512
             ("Failed to launch process." +:+ nl +:+ "Error code: %d")
             [ArgD err] ;;
    MessageBox msg "Error" (Z.lor MB_OK MB_ICONERROR) ;;;
    ret 1
  else
  CloseHandle pi_hProcess ;;;
  CloseHandle pi_hThread ;;;
  ret 0.

End dist_output.


(** ** What the specification names *)

(** The interpreter of a build. *)
Definition interpreter (m : Mode) : string :=
  match m with
  | Debug => "python.exe"
  | Release => "pythonw.exe"
  end.

(** The image path as the launcher holds it in [exePath]. *)
Definition image_buffer (image : string) : string :=
  if (String.length image <? MAX_PATH)%nat then image
  else substring 0 (MAX_PATH - 1) image.

(** The base directory: drive and directory of the image path. *)
Definition base_directory (exePath : string) : string :=
  _makepath (pp_drive (_splitpath exePath)) (pp_dir (_splitpath exePath))
            None None.

Definition interpreter_path (m : Mode) (base : string) : string :=
  base +:+ "base_env\" +:+ interpreter m.

Definition bootstrap_script_path (base : string) : string :=
  base +:+ "boot.py".

Definition packages_directory (base : string) : string :=
  base +:+ "site_packages".

Definition search_path (base : string) : string :=
  packages_directory base +:+ ";" +:+ base.

Definition child_command_line (m : Mode) (base : string) : string :=
  q +:+ interpreter_path m base +:+ q +:+ " " +:+ q
    +:+ bootstrap_script_path base +:+ q.

(** One report to the user: a modal error dialog in a release build, a line on
    standard output and a pause in a debug build. *)
Definition report (m : Mode) (text : string) : list Output :=
  match m with
  | Release => [Dialog text "Error" (Z.lor MB_OK MB_ICONERROR)]
  | Debug => [Stdout (text +:+ nl); System "pause"]
  end.

Definition not_found_text (path : string) : string :=
  "Python environment not found at:" +:+ nl +:+ path +:+ nl +:+ nl
  +:+ "Please ensure base_env is configured correctly.".

Definition launch_failed_text (code : Z) : string :=
  "Failed to launch process." +:+ nl +:+ "Error code: " +:+ pretty (as_int code).

(** The texts shown, pauses left out. *)
Definition messages (out : list Output) : list string :=
  omap (fun o => match o with
                 | Dialog text _ _ => Some text
                 | Stdout s => Some s
                 | System _ => None
                 end) out.

(** The base directory leaves room for the longest suffix and its
    terminator in a buffer of [MAX_PATH] bytes. *)
Definition within_buffers (base : string) : Prop :=
  (String.length base <= MAX_PATH - (String.length "base_env\pythonw.exe" + 1))%nat.

(** ** The states of a run *)

(** The process after one report. *)
Definition reported (m : Mode) (text : string) (p : Proc) : Proc :=
  match m with
  | Release => add_out (Dialog text "Error" (Z.lor MB_OK MB_ICONERROR)) p
  | Debug => add_out (System "pause") (add_out (Stdout (text +:+ nl)) p)
  end.

(** The process after a successful query of the image path. *)
Definition located (image : string) (p : Proc) : Proc :=
  if (String.length image <? MAX_PATH)%nat then p
  else set_last_error ERROR_INSUFFICIENT_BUFFER p.

(** The process after [_putenv]. *)
Definition env_prepared (os : OS) (base : string) (p : Proc) : Proc :=
  if os_putenv os ("PYTHONPATH=" +:+ search_path base)
  then set_env (<["PYTHONPATH" := search_path base]> (p_env p)) p
  else p.

(** What [CreateProcess] is asked to start. *)
Definition child_of (m : Mode) (base : string) (p : Proc) : Child :=
  {| ch_app := None;
     ch_cmdline := child_command_line m base;
     ch_inherit := FALSE;
     ch_flags := match m with Debug => 0 | Release => CREATE_NO_WINDOW end;
     ch_env := p_env p;
     ch_cwd := p_cwd p |}.

Definition spawned (c : Child) (hProcess hThread : Z) (p : Proc) : Proc :=
  set_handles ({[hProcess; hThread]} ∪ p_handles p) (add_child c p).

Definition closed (h : Z) (p : Proc) : Proc :=
  set_handles (p_handles p ∖ {[h]}) p.

(** ** Paths *)

(** A fully qualified path: a drive and a root, or the two slashes of a
    network path. *)
Definition fully_qualified (path : string) : bool :=
  match path with
  | String c0 (String c1 rest) =>
      (is_slash c0 && is_slash c1)
      || (Ascii.eqb c1 ":"%char
          && match rest with
             | String c2 _ => is_slash c2
             | EmptyString => false
             end)
  | _ => false
  end.

Definition slash_free (s : string) : bool :=
  negb (has_char "/"%char s) && negb (has_char "\"%char s).

(** The image path after its drive. *)
Definition after_drive (path : string) : string :=
  match path with
  | String c0 (String c1 rest) =>
      if Ascii.eqb c1 ":"%char then rest else path
  | _ => path
  end.

Definition drive_part (drive : string) : string :=
  match drive with
  | String c _ => String c ":"
  | EmptyString => EmptyString
  end.

Definition dir_part (dir : string) : string :=
  match dir with
  | EmptyString => EmptyString
  | _ => if ends_with_slash dir then dir else dir +:+ "\"
  end.

(** What [GetFileAttributes] returns for a path. *)
Definition attributes (os : OS) (path : string) : Z :=
  match os_GetFileAttributes os path with
  | Succeeds attrs => attrs
  | Fails _ => INVALID_FILE_ATTRIBUTES
  end.

(** The process after the working directory is pinned. *)
Definition pinned (image : string) (p : Proc) : Proc :=
  set_cwd (base_directory (image_buffer image)) (located image p).

(** The process after the existence check. *)
Definition probed (os : OS) (path : string) (p : Proc) : Proc :=
  match os_GetFileAttributes os path with
  | Succeeds _ => p
  | Fails code => set_last_error code p
  end.

(** The end of a run that has created its child. *)
Definition after_spawn (m : Mode) (os : OS) (hProcess hThread : Z) (p : Proc)
  : Result Z :=
  match m with
  | Release => Done 0 (closed hThread (closed hProcess p))
  | Debug =>
      match os_child os hProcess with
      | Some _ => Done 0 (closed hThread (add_waited hProcess p))
      | None => Stuck Blocked p
      end
  end.

(** The runs of the launcher, by the stage at which they end. *)
Inductive run_of (m : Mode) (os : OS) (p : Proc) : Result Z -> Prop :=
  | run_no_image code :
      os_GetModuleFileName os = Fails code ->
      run_of m os p
        (Done 1 (reported m "Failed to get executable path."
                   (set_last_error code p)))
  | run_empty_image_path :
      os_GetModuleFileName os = Succeeds EmptyString ->
      run_of m os p (Done 1 (reported m "Failed to get executable path." p))
  | run_no_pin image code :
      os_GetModuleFileName os = Succeeds image -> image <> EmptyString ->
      os_SetCurrentDirectory os (base_directory (image_buffer image))
        = Fails code ->
      run_of m os p
        (Done 1 (reported m "Failed to set current directory."
                   (set_last_error code (located image p))))
  | run_past_buffer image :
      os_GetModuleFileName os = Succeeds image -> image <> EmptyString ->
      os_SetCurrentDirectory os (base_directory (image_buffer image))
        = Succeeds tt ->
      (MAX_PATH <= String.length
         (interpreter_path m (base_directory (image_buffer image))))%nat ->
      run_of m os p (Stuck (Overrun "pythonPath") (pinned image p))
  | run_no_interpreter image :
      let base := base_directory (image_buffer image) in
      os_GetModuleFileName os = Succeeds image -> image <> EmptyString ->
      os_SetCurrentDirectory os base = Succeeds tt ->
      (String.length (interpreter_path m base) < MAX_PATH)%nat ->
      attributes os (interpreter_path m base) = INVALID_FILE_ATTRIBUTES ->
      run_of m os p
        (Done 1 (reported m (not_found_text (interpreter_path m base))
                   (probed os (interpreter_path m base) (pinned image p))))
  | run_no_child image code :
      let base := base_directory (image_buffer image) in
      let p3 := env_prepared os base (pinned image p) in
      os_GetModuleFileName os = Succeeds image -> image <> EmptyString ->
      os_SetCurrentDirectory os base = Succeeds tt ->
      (String.length (interpreter_path m base) < MAX_PATH)%nat ->
      attributes os (interpreter_path m base) <> INVALID_FILE_ATTRIBUTES ->
      os_CreateProcess os (child_of m base p3) = Fails code ->
      run_of m os p
        (Done 1 (reported m (launch_failed_text code)
                   (set_last_error code p3)))
  | run_child image hProcess hThread :
      let base := base_directory (image_buffer image) in
      let p3 := env_prepared os base (pinned image p) in
      os_GetModuleFileName os = Succeeds image -> image <> EmptyString ->
      os_SetCurrentDirectory os base = Succeeds tt ->
      (String.length (interpreter_path m base) < MAX_PATH)%nat ->
      attributes os (interpreter_path m base) <> INVALID_FILE_ATTRIBUTES ->
      os_CreateProcess os (child_of m base p3) = Succeeds (hProcess, hThread) ->
      run_of m os p
        (after_spawn m os hProcess hThread
           (spawned (child_of m base p3) hProcess hThread p3)).

(** ** Observations of a run *)

(** The processes that a run has created. *)
Definition created {A} (p : Proc) (r : Result A) : list Child :=
  drop (length (p_children p)) (p_children (final r)).

(** What a run has shown to the user. *)
Definition shown {A} (p : Proc) (r : Result A) : list Output :=
  drop (length (p_out p)) (p_out (final r)).

(** The exit-code contract read for every invocation: the launcher exits, with
    [0] exactly when a child was created and with [1] when none was. *)
Definition exit_code_contract (m : Mode) (args : Args) (os : OS) (p : Proc)
  : Prop :=
  let r := launcher m args os p in
  (exit_code r = Some 0 <-> created p r <> [])
  /\ (created p r = [] -> exit_code r = Some 1).

(** ** The shape of the command line *)

Inductive regex : Type :=
  | Lit (s : string)
  | NoneOf (c : ascii)
  | Cat (r1 r2 : regex)
  | Opt (r : regex)
  | Plus (r : regex).

Inductive matches : regex -> string -> Prop :=
  | matches_lit s : matches (Lit s) s
  | matches_none_of c d :
      d <> c -> matches (NoneOf c) (String d EmptyString)
  | matches_cat r1 r2 s1 s2 :
      matches r1 s1 -> matches r2 s2 -> matches (Cat r1 r2) (s1 +:+ s2)
  | matches_opt_skip r : matches (Opt r) EmptyString
  | matches_opt_take r s : matches r s -> matches (Opt r) s
  | matches_plus_one r s : matches r s -> matches (Plus r) s
  | matches_plus_more r s1 s2 :
      matches r s1 -> matches (Plus r) s2 -> matches (Plus r) (s1 +:+ s2).

(** The pattern of the specification, anchored at both ends: a quote, one or
    more characters that are no quote, [\base_env\python], an optional [w],
    [.exe], quote, blank, quote, one or more characters that are no quote,
    [\boot.py], quote. *)
Definition command_line_pattern : regex :=
  Cat (Lit q)
 (Cat (Plus (NoneOf dquote))
 (Cat (Lit "\base_env\python")
 (Cat (Opt (Lit "w"))
 (Cat (Lit (".exe" +:+ q +:+ " " +:+ q))
 (Cat (Plus (NoneOf dquote))
      (Lit ("\boot.py" +:+ q))))))).

(** ** Sample worlds *)

(** The launcher at [C:\app\run.exe], everything in place; the child exits
    with status [3].  The inherited environment has a search path already. *)
Definition app_os : OS := {|
  os_GetModuleFileName := Succeeds "C:\app\run.exe";
  os_SetCurrentDirectory := fun _ => Succeeds tt;
  os_GetFileAttributes := fun _ => Succeeds 32;
  os_putenv := fun _ => true;
  os_CreateProcess := fun _ => Succeeds (100, 104);
  os_child := fun _ => Some 3
|}.

Definition app_proc : Proc := {|
  p_cwd := "D:\";
  p_env := {[ "PYTHONPATH" := "V" ]};
  p_last_error := 0;
  p_handles := ∅;
  p_children := [];
  p_out := [];
  p_waited := []
|}.

(** A process that inherits no search path. *)
Definition bare_proc : Proc := {|
  p_cwd := "D:\";
  p_env := ∅;
  p_last_error := 0;
  p_handles := ∅;
  p_children := [];
  p_out := [];
  p_waited := []
|}.

Definition no_args : Args := MainArgs 1 ["run.exe"].

(** The same with no interpreter under [base_env]. *)
Definition missing_os : OS := {|
  os_GetModuleFileName := Succeeds "C:\app\run.exe";
  os_SetCurrentDirectory := fun _ => Succeeds tt;
  os_GetFileAttributes := fun _ => Fails 2;
  os_putenv := fun _ => true;
  os_CreateProcess := fun _ => Succeeds (100, 104);
  os_child := fun _ => Some 3
|}.

(** The same with a process creation that fails with [ERROR_ACCESS_DENIED]. *)
Definition denied_os : OS := {|
  os_GetModuleFileName := Succeeds "C:\app\run.exe";
  os_SetCurrentDirectory := fun _ => Succeeds tt;
  os_GetFileAttributes := fun _ => Succeeds 32;
  os_putenv := fun _ => true;
  os_CreateProcess := fun _ => Fails 5;
  os_child := fun _ => Some 3
|}.

(** The same with a runtime that cannot make the assignment. *)
Definition no_putenv_os : OS := {|
  os_GetModuleFileName := Succeeds "C:\app\run.exe";
  os_SetCurrentDirectory := fun _ => Succeeds tt;
  os_GetFileAttributes := fun _ => Succeeds 32;
  os_putenv := fun _ => false;
  os_CreateProcess := fun _ => Succeeds (100, 104);
  os_child := fun _ => Some 3
|}.

(** The same with a child that never exits: a server. *)
Definition server_os : OS := {|
  os_GetModuleFileName := Succeeds "C:\app\run.exe";
  os_SetCurrentDirectory := fun _ => Succeeds tt;
  os_GetFileAttributes := fun _ => Succeeds 32;
  os_putenv := fun _ => true;
  os_CreateProcess := fun _ => Succeeds (100, 104);
  os_child := fun _ => None
|}.

(** The launcher under [C:\Program Files\app]. *)
Definition spaced_os : OS := {|
  os_GetModuleFileName := Succeeds "C:\Program Files\app\run.exe";
  os_SetCurrentDirectory := fun _ => Succeeds tt;
  os_GetFileAttributes := fun _ => Succeeds 32;
  os_putenv := fun _ => true;
  os_CreateProcess := fun _ => Succeeds (100, 104);
  os_child := fun _ => Some 3
|}.

Fixpoint repeat_char (c : ascii) (n : nat) : string :=
  match n with
  | O => EmptyString
  | S n' => String c (repeat_char c n')
  end.

(** The launcher in a directory of 250 characters. *)
Definition deep_image : string := "C:\" +:+ repeat_char "a" 246 +:+ "\run.exe".

Definition deep_os : OS := {|
  os_GetModuleFileName := Succeeds deep_image;
  os_SetCurrentDirectory := fun _ => Succeeds tt;
  os_GetFileAttributes := fun _ => Succeeds 32;
  os_putenv := fun _ => true;
  os_CreateProcess := fun _ => Succeeds (100, 104);
  os_child := fun _ => Some 3
|}.

(** ** Variations of a world *)

(** The same system with another behaviour of the children. *)
Definition with_child (f : Z -> option Z) (os : OS) : OS := {|
  os_GetModuleFileName := os_GetModuleFileName os;
  os_SetCurrentDirectory := os_SetCurrentDirectory os;
  os_GetFileAttributes := os_GetFileAttributes os;
  os_putenv := os_putenv os;
  os_CreateProcess := os_CreateProcess os;
  os_child := f
|}.

(** The same system with other file attributes. *)
Definition with_attributes (f : string -> answer Z) (os : OS) : OS := {|
  os_GetModuleFileName := os_GetModuleFileName os;
  os_SetCurrentDirectory := os_SetCurrentDirectory os;
  os_GetFileAttributes := f;
  os_putenv := os_putenv os;
  os_CreateProcess := os_CreateProcess os;
  os_child := os_child os
|}.

(** The same system with the image at another path. *)
Definition with_image (image : string) (os : OS) : OS := {|
  os_GetModuleFileName := Succeeds image;
  os_SetCurrentDirectory := os_SetCurrentDirectory os;
  os_GetFileAttributes := os_GetFileAttributes os;
  os_putenv := os_putenv os;
  os_CreateProcess := os_CreateProcess os;
  os_child := os_child os
|}.

(** A process without its last error. *)
Definition forget_last_error (p : Proc) : Proc := set_last_error 0 p.

(** A system that does not tell the image path. *)
Definition unlocated_os : OS := {|
  os_GetModuleFileName := Fails 8;
  os_SetCurrentDirectory := fun _ => Succeeds tt;
  os_GetFileAttributes := fun _ => Succeeds 32;
  os_putenv := fun _ => true;
  os_CreateProcess := fun _ => Succeeds (100, 104);
  os_child := fun _ => Some 3
|}.

(** A system that refuses the change of directory. *)
Definition unpinned_os : OS := {|
  os_GetModuleFileName := Succeeds "C:\app\run.exe";
  os_SetCurrentDirectory := fun _ => Fails 5;
  os_GetFileAttributes := fun _ => Succeeds 32;
  os_putenv := fun _ => true;
  os_CreateProcess := fun _ => Succeeds (100, 104);
  os_child := fun _ => Some 3
|}.

(** A system where the interpreter is the only file there is: no [boot.py],
    no [site_packages]. *)
Definition interpreter_only_os : OS := {|
  os_GetModuleFileName := Succeeds "C:\app\run.exe";
  os_SetCurrentDirectory := fun _ => Succeeds tt;
  os_GetFileAttributes := fun path =>
    if String.eqb path "C:\app\base_env\pythonw.exe" then Succeeds 32
    else Fails 2;
  os_putenv := fun _ => true;
  os_CreateProcess := fun _ => Succeeds (100, 104);
  os_child := fun _ => Some 3
|}.

(** A system whose process creation fails with a code past [INT_MAX]. *)
Definition odd_code_os : OS := {|
  os_GetModuleFileName := Succeeds "C:\app\run.exe";
  os_SetCurrentDirectory := fun _ => Succeeds tt;
  os_GetFileAttributes := fun _ => Succeeds 32;
  os_putenv := fun _ => true;
  os_CreateProcess := fun _ => Fails 4294967295;
  os_child := fun _ => Some 3
|}.

(** An image path of 300 characters. *)
Definition long_image : string :=
  "C:\app\" +:+ repeat_char "b" 289 +:+ ".exe".

Definition long_os : OS := with_image long_image app_os.

(** * Properties *)

(** ** Sample runs of the runtime routines *)

Example splitpath_run :
  _splitpath "C:\app\run.exe" =
  {| pp_drive := "C:"; pp_dir := "\app\"; pp_fname := "run"; pp_ext := ".exe" |}.
Proof. reflexivity. Qed.

Example makepath_run : _makepath "C:" "\app\" None None = "C:\app\".
Proof. reflexivity. Qed.

Example format_run :
  format "%sbase_env\pythonw.exe" [ArgS "C:\app\"] = "C:\app\base_env\pythonw.exe".
Proof. reflexivity. Qed.

Example format_d_run :
  format ("Failed to launch process." +:+ nl +:+ "Error code: %d") [ArgD 2]
  = "Failed to launch process." +:+ nl +:+ "Error code: 2".
Proof. reflexivity. Qed.

(** The shipped copy is the release build of [dist_tools/launcher.c]. *)
Lemma dist_output_release hInstance hPrevInstance lpCmdLine nCmdShow :
  dist_output.WinMain hInstance hPrevInstance lpCmdLine nCmdShow
  = WinMain hInstance hPrevInstance lpCmdLine nCmdShow.
Proof. reflexivity. Qed.

(** Case analysis on what the goal matches on. *)
Ltac case_goal :=
  match goal with
  | |- context [match ?x with _ => _ end] => destruct x eqn:?
  end.

(** ** Strings *)

Lemma app_cons c (a b : string) : String c a +:+ b = String c (a +:+ b).
Proof. reflexivity. Qed.

Lemma app_nil_l_str (b : string) : EmptyString +:+ b = b.
Proof. reflexivity. Qed.

Lemma length_app (a b : string) :
  String.length (a +:+ b) = (String.length a + String.length b)%nat.
Proof.
  induction a as [|c a IH]; [reflexivity|].
  rewrite app_cons. cbn [String.length]. now rewrite IH.
Qed.

Lemma app_assoc_str (a b c : string) : (a +:+ b) +:+ c = a +:+ (b +:+ c).
Proof.
  induction a as [|x a IH]; [reflexivity|].
  rewrite !app_cons. now rewrite IH.
Qed.

Lemma app_empty_r (a : string) : a +:+ EmptyString = a.
Proof.
  induction a as [|x a IH]; [reflexivity|].
  rewrite app_cons. now rewrite IH.
Qed.

Lemma has_char_app c (a b : string) :
  has_char c (a +:+ b) = has_char c a || has_char c b.
Proof.
  induction a as [|x a IH]; [reflexivity|].
  rewrite app_cons. cbn [has_char]. rewrite IH. now rewrite orb_assoc.
Qed.

Lemma last_char_app_cons (a : string) c (b : string) :
  last_char (a +:+ String c b) = last_char (String c b).
Proof.
  induction a as [|x a IH]; [reflexivity|].
  rewrite app_cons. rewrite <- IH.
  destruct a as [|y a]; reflexivity.
Qed.

(** The formats of the launcher, evaluated. *)
Lemma format_pythonPath m base :
  format (match m with
          | Debug => "%sbase_env\python.exe"
          | Release => "%sbase_env\pythonw.exe"
          end) [ArgS base] = interpreter_path m base.
Proof. destruct m; reflexivity. Qed.

Lemma format_bootScript base :
  format "%sboot.py" [ArgS base] = bootstrap_script_path base.
Proof. reflexivity. Qed.

Lemma format_pythonEnv base :
  format "PYTHONPATH=%ssite_packages;%s" [ArgS base; ArgS base]
  = "PYTHONPATH=" +:+ search_path base.
Proof.
  unfold search_path, packages_directory. rewrite (app_assoc_str base).
  change (format "PYTHONPATH=%ssite_packages;%s" [ArgS base; ArgS base])
    with ("PYTHONPATH=" +:+ base +:+ "site_packages;" +:+ base +:+ EmptyString).
  now rewrite app_empty_r.
Qed.

Lemma format_cmdLine m base :
  format (q +:+ "%s" +:+ q +:+ " " +:+ q +:+ "%s" +:+ q)
         [ArgS (interpreter_path m base); ArgS (bootstrap_script_path base)]
  = child_command_line m base.
Proof. reflexivity. Qed.

Lemma format_not_found path :
  format ("Python environment not found at:" +:+ nl +:+ "%s" +:+ nl +:+ nl
          +:+ "Please ensure base_env is configured correctly.") [ArgS path]
  = not_found_text path.
Proof. reflexivity. Qed.

Lemma format_launch_failed code :
  format ("Failed to launch process." +:+ nl +:+ "Error code: %d") [ArgD code]
  = launch_failed_text code.
Proof.
  change (format ("Failed to launch process." +:+ nl +:+ "Error code: %d")
                 [ArgD code])
    with ("Failed to launch process." +:+ nl +:+ "Error code: "
          +:+ pretty (as_int code) +:+ EmptyString).
  now rewrite app_empty_r.
Qed.

Lemma format_line msg : format ("%s" +:+ nl) [ArgS msg] = msg +:+ nl.
Proof. reflexivity. Qed.

(** ** Running the launcher, stage by stage *)

Lemma p_out_reported m text p :
  p_out (reported m text p) = p_out p ++ report m text.
Proof. destruct m; cbn; [reflexivity | now rewrite <- app_assoc]. Qed.

Lemma search_path_nonempty base : search_path base <> EmptyString.
Proof.
  unfold search_path, packages_directory.
  intros H. apply (f_equal String.length) in H.
  rewrite !length_app in H. cbn in H. lia.
Qed.

Lemma split_assignment_PYTHONPATH v :
  split_assignment ("PYTHONPATH=" +:+ v) = Some ("PYTHONPATH", v).
Proof. reflexivity. Qed.

Lemma putenv_PYTHONPATH os base p :
  _putenv ("PYTHONPATH=" +:+ search_path base) os p
  = Done (if os_putenv os ("PYTHONPATH=" +:+ search_path base) then 0 else -1)
         (env_prepared os base p).
Proof.
  unfold _putenv, env_prepared. rewrite split_assignment_PYTHONPATH.
  destruct (os_putenv os _); [|reflexivity].
  destruct (search_path base) eqn:E; [|reflexivity].
  now destruct (search_path_nonempty base).
Qed.

(** The decimal text of a 32-bit [int] has at most eleven characters. *)
Lemma pretty_N_go_length (k : nat) : forall (x : N) (s : string),
  (x < 10 ^ N.of_nat k)%N ->
  (String.length (pretty_N_go x s) <= k + String.length s)%nat.
Proof.
  induction k as [|k IH]; intros x s Hx.
  - assert (x = 0%N) as -> by (cbn in Hx; lia).
    rewrite pretty_N_go_0. lia.
  - destruct (decide (x = 0%N)) as [->|Hne].
    + rewrite pretty_N_go_0. lia.
    + rewrite pretty_N_go_step by lia.
      etrans; [apply IH|cbn [String.length]; lia].
      rewrite Nat2N.inj_succ, N.pow_succ_r' in Hx.
      apply N.Div0.div_lt_upper_bound. lia.
Qed.

Lemma pretty_positive_length (x : positive) :
  (Z.pos x <= 2 ^ 31) -> (String.length (pretty x) <= 10)%nat.
Proof.
  intros Hx. unfold pretty, pretty_positive, pretty, pretty_N.
  destruct (decide _) as [|_]; [cbn; lia|].
  etrans; [apply (pretty_N_go_length 10)|cbn; lia].
  change (10 ^ N.of_nat 10)%N with 10000000000%N. lia.
Qed.

Lemma as_int_range (n : Z) : - 2 ^ 31 <= as_int n < 2 ^ 31.
Proof.
  unfold as_int. pose proof (Z.mod_pos_bound (n + 2 ^ 31) (2 ^ 32)). lia.
Qed.

Lemma as_int_small (n : Z) : 0 <= n < 2 ^ 31 -> as_int n = n.
Proof. intros H. unfold as_int. rewrite Z.mod_small; lia. Qed.

Lemma pretty_int_length (n : Z) :
  (String.length (pretty (as_int n)) <= 11)%nat.
Proof.
  pose proof (as_int_range n) as H.
  destruct (as_int n) as [|x|x]; unfold pretty, pretty_Z.
  - cbn; lia.
  - etrans; [apply pretty_positive_length|]; lia.
  - change (String.length ("-" +:+ pretty x)) with (S (String.length (pretty x))).
    pose proof (pretty_positive_length x). lia.
Qed.

(** *** The lengths that [sprintf] writes *)

Lemma length_interpreter m : (String.length (interpreter m) <= 11)%nat.
Proof. destruct m; cbn; lia. Qed.

Lemma length_interpreter_path m base :
  String.length (interpreter_path m base)
  = (String.length base + 9 + String.length (interpreter m))%nat.
Proof. unfold interpreter_path. rewrite !length_app. cbn. lia. Qed.

Lemma length_bootstrap_script_path base :
  String.length (bootstrap_script_path base) = (String.length base + 7)%nat.
Proof. unfold bootstrap_script_path. rewrite length_app. reflexivity. Qed.

Lemma length_search_path base :
  String.length (search_path base) = (2 * String.length base + 14)%nat.
Proof.
  unfold search_path, packages_directory. rewrite !length_app. cbn. lia.
Qed.

Lemma length_child_command_line m base :
  String.length (child_command_line m base)
  = (String.length (interpreter_path m base)
     + String.length (bootstrap_script_path base) + 5)%nat.
Proof. unfold child_command_line. rewrite !length_app. cbn. lia. Qed.

Lemma length_not_found_text path :
  String.length (not_found_text path) = (String.length path + 82)%nat.
Proof. unfold not_found_text. rewrite !length_app. cbn. lia. Qed.

Lemma length_launch_failed_text code :
  (String.length (launch_failed_text code) <= 49)%nat.
Proof.
  unfold launch_failed_text. rewrite !length_app.
  pose proof (pretty_int_length code). cbn. lia.
Qed.

Lemma within_buffers_fits m base :
  within_buffers base ->
  (String.length (interpreter_path m base) < MAX_PATH)%nat.
Proof.
  unfold within_buffers, MAX_PATH. rewrite length_interpreter_path.
  pose proof (length_interpreter m). cbn. lia.
Qed.

(** *** The calls to [sprintf], one by one *)

Lemma sprintf_pythonPath m base os p :
  (match m with
   | Debug => sprintf "pythonPath" MAX_PATH "%sbase_env\python.exe" [ArgS base]
   | Release => sprintf "pythonPath" MAX_PATH "%sbase_env\pythonw.exe" [ArgS base]
   end) os p
  = if (String.length (interpreter_path m base) <? MAX_PATH)%nat
    then Done (interpreter_path m base) p
    else Stuck (Overrun "pythonPath") p.
Proof. unfold sprintf. rewrite <- format_pythonPath. now destruct m. Qed.

Lemma sprintf_bootScript m base os p :
  (String.length (interpreter_path m base) < MAX_PATH)%nat ->
  sprintf "bootScript" MAX_PATH "%sboot.py" [ArgS base] os p
  = Done (bootstrap_script_path base) p.
Proof.
  intros H. unfold sprintf. rewrite format_bootScript.
  rewrite length_interpreter_path in H.
  assert ((String.length (bootstrap_script_path base) <? MAX_PATH)%nat = true)
    as -> ; [|reflexivity].
  apply Nat.ltb_lt. rewrite length_bootstrap_script_path. lia.
Qed.

Lemma sprintf_not_found path os p :
  (String.length path < MAX_PATH)%nat ->
  sprintf "msg" 512
    ("Python environment not found at:" +:+ nl +:+ "%s" +:+ nl +:+ nl
     +:+ "Please ensure base_env is configured correctly.") [ArgS path] os p
  = Done (not_found_text path) p.
Proof.
  intros H. unfold sprintf. rewrite format_not_found.
  assert ((String.length (not_found_text path) <? 512)%nat = true)
    as -> ; [|reflexivity].
  apply Nat.ltb_lt. rewrite length_not_found_text. unfold MAX_PATH in H. lia.
Qed.

Lemma sprintf_pythonEnv m base os p :
  (String.length (interpreter_path m base) < MAX_PATH)%nat ->
  sprintf "pythonEnv" (MAX_PATH * 4) "PYTHONPATH=%ssite_packages;%s"
          [ArgS base; ArgS base] os p
  = Done ("PYTHONPATH=" +:+ search_path base) p.
Proof.
  intros H. unfold sprintf. rewrite format_pythonEnv.
  rewrite length_interpreter_path in H.
  assert ((String.length ("PYTHONPATH=" +:+ search_path base)
           <? MAX_PATH * 4)%nat = true) as -> ; [|reflexivity].
  apply Nat.ltb_lt. rewrite length_app, length_search_path.
  unfold MAX_PATH in *. cbn. lia.
Qed.

Lemma sprintf_cmdLine m base os p :
  (String.length (interpreter_path m base) < MAX_PATH)%nat ->
  sprintf "cmdLine" (MAX_PATH * 4)
          (q +:+ "%s" +:+ q +:+ " " +:+ q +:+ "%s" +:+ q)
          [ArgS (interpreter_path m base); ArgS (bootstrap_script_path base)]
          os p
  = Done (child_command_line m base) p.
Proof.
  intros H. unfold sprintf. rewrite format_cmdLine.
  assert ((String.length (child_command_line m base)
           <? MAX_PATH * 4)%nat = true) as -> ; [|reflexivity].
  apply Nat.ltb_lt. rewrite length_child_command_line.
  rewrite length_bootstrap_script_path.
  rewrite length_interpreter_path in *. unfold MAX_PATH in *. lia.
Qed.

Lemma sprintf_launch_failed code os p :
  sprintf "msg" 512
    ("Failed to launch process." +:+ nl +:+ "Error code: %d") [ArgD code] os p
  = Done (launch_failed_text code) p.
Proof.
  unfold sprintf. rewrite format_launch_failed.
  assert ((String.length (launch_failed_text code) <? 512)%nat = true)
    as -> ; [|reflexivity].
  apply Nat.ltb_lt. pose proof (length_launch_failed_text code). lia.
Qed.

Section Run.
Variables (m : Mode) (args : Args) (os : OS) (p : Proc).

Lemma run_self_location_failed code :
  os_GetModuleFileName os = Fails code ->
  launcher m args os p
  = Done 1 (reported m "Failed to get executable path."
              (set_last_error code p)).
Proof.
  intros H. unfold launcher, bind, GetModuleFileName. rewrite H.
  destruct m; reflexivity.
Qed.

Lemma run_empty_image :
  os_GetModuleFileName os = Succeeds EmptyString ->
  launcher m args os p
  = Done 1 (reported m "Failed to get executable path." p).
Proof.
  intros H. unfold launcher, bind, GetModuleFileName. rewrite H.
  destruct m; reflexivity.
Qed.

Variable image : string.
Hypothesis Himage : os_GetModuleFileName os = Succeeds image.
Hypothesis Hnonempty : image <> EmptyString.

Let base := base_directory (image_buffer image).
Let p1 := located image p.

Lemma GetModuleFileName_located :
  exists n, n <> 0 /\
    GetModuleFileName MAX_PATH os p = Done (n, image_buffer image) p1.
Proof.
  unfold GetModuleFileName, image_buffer, p1, located. rewrite Himage.
  destruct (String.length image <? MAX_PATH)%nat.
  - exists (Z.of_nat (String.length image)). split; [|reflexivity].
    destruct image; [congruence | cbn [String.length]; lia].
  - exists (Z.of_nat MAX_PATH). split; [|reflexivity]. unfold MAX_PATH. lia.
Qed.

Lemma run_pin_failed code :
  os_SetCurrentDirectory os base = Fails code ->
  launcher m args os p
  = Done 1 (reported m "Failed to set current directory."
              (set_last_error code p1)).
Proof.
  intros H. destruct GetModuleFileName_located as (n & Hn & E).
  unfold launcher, bind. rewrite E. cbn [fst snd].
  apply Z.eqb_neq in Hn. rewrite Hn.
  unfold base, base_directory in H.
  unfold SetCurrentDirectory. rewrite H.
  destruct m; reflexivity.
Qed.

Lemma run_overrun u :
  os_SetCurrentDirectory os base = Succeeds u ->
  (MAX_PATH <= String.length (interpreter_path m base))%nat ->
  launcher m args os p = Stuck (Overrun "pythonPath") (set_cwd base p1).
Proof.
  intros Hpin Hlong. destruct GetModuleFileName_located as (n & Hn & E).
  unfold launcher, bind. rewrite E. cbn [fst snd].
  apply Z.eqb_neq in Hn. rewrite Hn.
  unfold base, base_directory in Hpin, Hlong.
  unfold SetCurrentDirectory. rewrite Hpin.
  change (TRUE =? 0) with false. cbv beta iota.
  rewrite sprintf_pythonPath.
  apply Nat.ltb_ge in Hlong. now rewrite Hlong.
Qed.

Hypothesis Hpin : os_SetCurrentDirectory os base = Succeeds tt.
Hypothesis Hfit : (String.length (interpreter_path m base) < MAX_PATH)%nat.

Let p2 := set_cwd base p1.

(** The launcher from the existence check on. *)
Lemma run_resolved :
  launcher m args os p
  = match os_GetFileAttributes os (interpreter_path m base) with
    | Fails code =>
        Done 1 (reported m (not_found_text (interpreter_path m base))
                  (set_last_error code p2))
    | Succeeds attrs =>
        if attrs =? INVALID_FILE_ATTRIBUTES then
          Done 1 (reported m (not_found_text (interpreter_path m base)) p2)
        else
          let p3 := env_prepared os base p2 in
          let c := child_of m base p3 in
          match os_CreateProcess os c with
          | Fails code =>
              Done 1 (reported m (launch_failed_text code)
                        (set_last_error code p3))
          | Succeeds (hProcess, hThread) =>
              let p4 := spawned c hProcess hThread p3 in
              match m with
              | Release => Done 0 (closed hThread (closed hProcess p4))
              | Debug =>
                  match os_child os hProcess with
                  | Some _ => Done 0 (closed hThread (add_waited hProcess p4))
                  | None => Stuck Blocked p4
                  end
              end
          end
    end.
Proof.
  destruct GetModuleFileName_located as (n & Hn & E).
  unfold launcher, bind. rewrite E. cbn [fst snd].
  apply Z.eqb_neq in Hn. rewrite Hn.
  pose proof Hpin as Hpin'. pose proof Hfit as Hfit'.
  unfold base, base_directory in Hpin'.
  unfold SetCurrentDirectory. rewrite Hpin'.
  change (TRUE =? 0) with false. cbv beta iota.
  change (_makepath _ _ None None) with base. fold p1. fold p2.
  rewrite sprintf_pythonPath.
  apply Nat.ltb_lt in Hfit'. rewrite Hfit'.
  rewrite (sprintf_bootScript m) by exact Hfit.
  unfold GetFileAttributes.
  destruct (os_GetFileAttributes os (interpreter_path m base)) as [attrs|code].
  - destruct (attrs =? INVALID_FILE_ATTRIBUTES) eqn:Hattrs.
    + rewrite sprintf_not_found by exact Hfit. now destruct m.
    + rewrite (sprintf_pythonEnv m) by exact Hfit.
      rewrite putenv_PYTHONPATH.
      rewrite (sprintf_cmdLine m) by exact Hfit.
      unfold CreateProcess. cbn [default].
      change {| ch_app := None; ch_cmdline := child_command_line m base;
                ch_inherit := FALSE;
                ch_flags := match m with
                            | Release => CREATE_NO_WINDOW
                            | Debug => 0
                            end;
                ch_env := p_env (env_prepared os base p2);
                ch_cwd := p_cwd (env_prepared os base p2) |}
        with (child_of m base (env_prepared os base p2)).
      destruct (os_CreateProcess os _) as [[hProcess hThread]|code].
      * cbn [fst snd]. change (TRUE =? 0) with false. cbv beta iota.
        destruct m; [reflexivity|].
        unfold WaitForSingleObject.
        now destruct (os_child os hProcess).
      * cbn [fst snd]. change (FALSE =? 0) with true. cbv beta iota.
        unfold GetLastError. rewrite sprintf_launch_failed.
        now destruct m.
  - change (INVALID_FILE_ATTRIBUTES =? INVALID_FILE_ATTRIBUTES) with true.
    cbv beta iota. rewrite sprintf_not_found by exact Hfit. now destruct m.
Qed.
End Run.

(** ** Paths *)

Lemma substring_0_S n c s :
  substring 0 (S n) (String c s) = String c (substring 0 n s).
Proof. reflexivity. Qed.

Lemma has_char_substring c s : forall n k,
  has_char c (substring n k s) = true -> has_char c s = true.
Proof.
  induction s as [|d s IH]; intros n k H.
  - destruct n, k; exact H.
  - destruct n as [|n].
    + destruct k as [|k]; [discriminate|].
      rewrite substring_0_S in H. cbn [has_char] in *.
      apply orb_true_iff in H as [H|H]; [now rewrite H|].
      rewrite (IH _ _ H). apply orb_true_r.
    + cbn [substring] in H. cbn [has_char].
      rewrite (IH _ _ H). apply orb_true_r.
Qed.

Lemma substring_0_app (a b : string) :
  substring 0 (String.length a) (a +:+ b) = a.
Proof.
  induction a as [|c a IH].
  - destruct b; reflexivity.
  - rewrite app_cons. cbn [String.length]. rewrite substring_0_S.
    now rewrite IH.
Qed.

Lemma last_char_has_char s c : last_char s = Some c -> has_char c s = true.
Proof.
  induction s as [|d s IH]; [discriminate|].
  destruct s as [|e s].
  - cbn. intros [= ->]. now rewrite Ascii.eqb_refl.
  - intros H.
    change (has_char c (String d (String e s)))
      with (Ascii.eqb c d || has_char c (String e s)).
    rewrite IH; [apply orb_true_r | exact H].
Qed.

Lemma ends_with_slash_app (a b : string) :
  b <> EmptyString -> ends_with_slash (a +:+ b) = ends_with_slash b.
Proof.
  intros Hb. destruct b as [|c b]; [congruence|].
  unfold ends_with_slash. now rewrite last_char_app_cons.
Qed.

Lemma last_slash_le s : (last_slash s <= String.length s)%nat.
Proof.
  induction s as [|c s IH]; [reflexivity|].
  cbn [last_slash String.length].
  destruct (last_slash s); [destruct (is_slash c)|]; lia.
Qed.

Lemma last_slash_ends s :
  ends_with_slash s = true -> last_slash s = String.length s.
Proof.
  induction s as [|c s IH]; [discriminate|].
  destruct s as [|d s].
  - unfold ends_with_slash. cbn. now intros ->.
  - intros H. specialize (IH H).
    cbn [last_slash String.length] in *.
    destruct (match last_slash s with
              | O => if is_slash d then 1%nat else O
              | S n => S (S n)
              end); [discriminate | now rewrite IH].
Qed.

Lemma is_slash_has_char c s :
  is_slash c = true -> slash_free s = true -> has_char c s = false.
Proof.
  unfold is_slash, slash_free. intros Hc Hs.
  apply andb_true_iff in Hs as [H1 H2].
  apply negb_true_iff in H1, H2.
  apply orb_true_iff in Hc as [Hc|Hc]; apply Ascii.eqb_eq in Hc; now subst.
Qed.

Lemma last_slash_slash_free s : slash_free s = true -> last_slash s = O.
Proof.
  induction s as [|c s IH]; [reflexivity|].
  intros H. cbn [last_slash].
  assert (slash_free s = true /\ is_slash c = false) as [Hs Hc].
  { unfold slash_free, is_slash in *.
    apply andb_true_iff in H as [H1 H2].
    apply negb_true_iff in H1, H2. cbn [has_char] in H1, H2.
    apply orb_false_iff in H1 as [H1 H1'], H2 as [H2 H2'].
    rewrite (Ascii.eqb_sym c "/"), (Ascii.eqb_sym c "\").
    now rewrite H1, H1', H2, H2'. }
  now rewrite IH, Hc.
Qed.

Lemma last_slash_app (a b : string) :
  slash_free b = true -> last_slash (a +:+ b) = last_slash a.
Proof.
  intros Hb. induction a as [|c a IH].
  - now rewrite app_nil_l_str, last_slash_slash_free.
  - rewrite app_cons. cbn [last_slash]. now rewrite IH.
Qed.

(** *** The base directory *)

Lemma makepath_parts drive dir :
  _makepath drive dir None None = drive_part drive +:+ dir_part dir.
Proof.
  unfold _makepath, drive_part, dir_part.
  rewrite app_nil_l_str. now rewrite app_empty_r.
Qed.

Lemma splitpath_drive path :
  pp_drive (_splitpath path)
  = match path with
    | String c0 (String c1 _) =>
        if Ascii.eqb c1 ":"%char then String c0 (String c1 EmptyString)
        else EmptyString
    | _ => EmptyString
    end.
Proof.
  unfold _splitpath.
  destruct path as [|c0 [|c1 rest]];
    [| |destruct (Ascii.eqb c1 ":")];
    destruct (last_dot _); try destruct (_ <=? _)%nat; reflexivity.
Qed.

Lemma splitpath_dir path :
  pp_dir (_splitpath path)
  = substring 0 (Nat.min (last_slash (after_drive path)) 255) (after_drive path).
Proof.
  unfold _splitpath, after_drive.
  destruct path as [|c0 [|c1 rest]];
    [| |destruct (Ascii.eqb c1 ":")];
    destruct (last_dot _); try destruct (_ <=? _)%nat; reflexivity.
Qed.

Lemma base_directory_parts exePath :
  base_directory exePath
  = drive_part (pp_drive (_splitpath exePath))
    +:+ dir_part (substring 0 (Nat.min (last_slash (after_drive exePath)) 255)
                            (after_drive exePath)).
Proof. unfold base_directory. now rewrite makepath_parts, splitpath_dir. Qed.

Lemma dir_part_ends dir :
  dir <> EmptyString -> ends_with_slash (dir_part dir) = true.
Proof.
  intros H. unfold dir_part. destruct dir as [|c dir]; [congruence|].
  destruct (ends_with_slash (String c dir)) eqn:E; [exact E|].
  now rewrite ends_with_slash_app.
Qed.

Lemma dir_part_cons c dir :
  exists rest, dir_part (String c dir) = String c rest.
Proof.
  unfold dir_part. destruct (ends_with_slash _); eauto.
Qed.

Lemma last_slash_cons_slash c s :
  is_slash c = true -> exists k, last_slash (String c s) = S k.
Proof.
  intros H. cbn [last_slash]. rewrite H. destruct (last_slash s); eauto.
Qed.

Lemma last_slash_cons_pos c s k :
  last_slash s = S k -> last_slash (String c s) = S (S k).
Proof. intros H. cbn [last_slash]. now rewrite H. Qed.

(** The directory cut out of a path that starts with a slash starts with that
    slash. *)
Lemma dir_cons_slash c s :
  is_slash c = true ->
  exists rest,
    substring 0 (Nat.min (last_slash (String c s)) 255) (String c s)
    = String c rest.
Proof.
  intros H. destruct (last_slash_cons_slash c s H) as [k ->].
  destruct (Nat.min (S k) 255) as [|j] eqn:E; [lia|].
  rewrite substring_0_S. eauto.
Qed.

Lemma dir_cons_slash2 c0 c1 s :
  is_slash c1 = true ->
  exists rest,
    substring 0 (Nat.min (last_slash (String c0 (String c1 s))) 255)
              (String c0 (String c1 s))
    = String c0 (String c1 rest).
Proof.
  intros H. destruct (last_slash_cons_slash c1 s H) as [k Hk].
  rewrite (last_slash_cons_pos _ _ _ Hk).
  destruct (Nat.min (S (S k)) 255) as [|[|j]] eqn:E; [lia|lia|].
  rewrite !substring_0_S. eauto.
Qed.

Lemma is_slash_not_colon c : is_slash c = true -> Ascii.eqb c ":" = false.
Proof.
  unfold is_slash. intros H. apply orb_true_iff in H as [H|H];
    apply Ascii.eqb_eq in H; now subst.
Qed.

Lemma base_directory_qualified exePath :
  fully_qualified exePath = true ->
  fully_qualified (base_directory exePath) = true
  /\ ends_with_slash (base_directory exePath) = true.
Proof.
  intros H. rewrite base_directory_parts, splitpath_drive.
  destruct exePath as [|c0 [|c1 rest]]; try discriminate.
  unfold after_drive. cbn [fully_qualified] in H.
  destruct (Ascii.eqb c1 ":") eqn:Hc1.
  - assert (is_slash c1 = false) as Hs1.
    { destruct (is_slash c1) eqn:E; [|reflexivity].
      apply is_slash_not_colon in E. congruence. }
    rewrite Hs1, andb_false_r in H. cbn in H.
    destruct rest as [|c2 rest]; [discriminate|].
    destruct (dir_cons_slash c2 rest H) as [d ->].
    destruct (dir_part_cons c2 d) as [d' Hd'].
    split.
    + rewrite Hd'. cbn [drive_part]. rewrite !app_cons, app_nil_l_str.
      cbn [fully_qualified]. rewrite H. now rewrite orb_true_r.
    + rewrite ends_with_slash_app; [now apply dir_part_ends|].
      rewrite Hd'. discriminate.
  - rewrite andb_false_l, orb_false_r in H.
    apply andb_true_iff in H as [H0 H1].
    destruct (dir_cons_slash2 c0 c1 rest H1) as [d ->].
    destruct (dir_part_cons c0 (String c1 d)) as [d' Hd'].
    assert (exists d'', d' = String c1 d'') as [d'' ->].
    { unfold dir_part in Hd'. destruct (ends_with_slash _).
      - injection Hd' as <-. eauto.
      - rewrite !app_cons in Hd'. injection Hd' as <-. eauto. }
    cbn [drive_part]. rewrite app_nil_l_str. split.
    + rewrite Hd'. cbn [fully_qualified]. now rewrite H0, H1.
    + now apply dir_part_ends.
Qed.

Lemma fully_qualified_image_buffer image :
  fully_qualified (image_buffer image) = fully_qualified image.
Proof.
  unfold image_buffer. destruct (String.length image <? MAX_PATH)%nat eqn:E;
    [reflexivity|].
  apply Nat.ltb_ge in E.
  destruct image as [|c0 [|c1 [|c2 rest]]];
    try (cbn [String.length] in E; unfold MAX_PATH in E; lia).
  change (MAX_PATH - 1)%nat with (S (S (S 256))).
  now rewrite !substring_0_S.
Qed.

Lemma has_char_after_drive c path :
  has_char c (after_drive path) = true -> has_char c path = true.
Proof.
  unfold after_drive. destruct path as [|c0 [|c1 rest]]; try tauto.
  destruct (Ascii.eqb c1 ":"); [|tauto].
  intros H. cbn [has_char]. rewrite H. now rewrite !orb_true_r.
Qed.

Lemma has_char_dir_part c dir :
  Ascii.eqb c "\" = false ->
  has_char c (dir_part dir) = true -> has_char c dir = true.
Proof.
  intros Hc. unfold dir_part. destruct dir as [|d dir]; [tauto|].
  destruct (ends_with_slash _); [tauto|].
  rewrite has_char_app. cbn [has_char]. rewrite Hc. cbn [orb].
  now rewrite orb_false_r.
Qed.

(** A character of the base directory is a character of the image path, or one
    of the two that [_makepath] writes. *)
Lemma has_char_base_directory c exePath :
  Ascii.eqb c "\" = false -> Ascii.eqb c ":" = false ->
  has_char c exePath = false ->
  has_char c (base_directory exePath) = false.
Proof.
  intros Hb Hc H. rewrite base_directory_parts, splitpath_drive, has_char_app.
  apply orb_false_iff. split.
  - destruct exePath as [|c0 [|c1 rest]]; try reflexivity.
    destruct (Ascii.eqb c1 ":"); [|reflexivity].
    cbn [drive_part has_char]. rewrite Hc.
    cbn [has_char] in H. apply orb_false_iff in H as [-> _]. reflexivity.
  - destruct (has_char c (dir_part _)) eqn:E; [|reflexivity].
    apply has_char_dir_part in E; [|exact Hb].
    apply has_char_substring, has_char_after_drive in E. congruence.
Qed.

Lemma has_char_image_buffer c image :
  has_char c image = false -> has_char c (image_buffer image) = false.
Proof.
  intros H. unfold image_buffer. destruct (_ <? _)%nat; [exact H|].
  destruct (has_char c (substring _ _ _)) eqn:E; [|reflexivity].
  apply has_char_substring in E. congruence.
Qed.

Lemma last_char_split s c :
  last_char s = Some c -> exists pfx, s = pfx +:+ String c EmptyString.
Proof.
  induction s as [|d s IH]; [discriminate|].
  destruct s as [|e s].
  - intros [= ->]. now exists EmptyString.
  - intros H. destruct (IH H) as [pfx ->].
    exists (String d pfx). now rewrite app_cons.
Qed.

(** A base directory of backslashes only ends in a backslash. *)
Lemma ends_with_backslash s :
  ends_with_slash s = true -> has_char "/" s = false ->
  exists pfx, s = pfx +:+ "\".
Proof.
  unfold ends_with_slash. intros H Hno.
  destruct (last_char s) as [c|] eqn:E; [|discriminate].
  destruct (last_char_split s c E) as [pfx ->]. exists pfx.
  apply last_char_has_char in E.
  unfold is_slash in H. apply orb_true_iff in H as [H|H];
    apply Ascii.eqb_eq in H; subst c; [congruence | reflexivity].
Qed.

(** *** Splitting a derived path again *)

Lemma after_drive_app base name :
  ends_with_slash base = true -> has_char ":" name = false ->
  after_drive (base +:+ name) = after_drive base +:+ name
  /\ pp_drive (_splitpath (base +:+ name)) = pp_drive (_splitpath base)
  /\ ends_with_slash (after_drive base) = true.
Proof.
  intros He Hn. rewrite !splitpath_drive. unfold after_drive.
  destruct base as [|c0 [|c1 rest]]; [discriminate| |].
  - rewrite app_cons, app_nil_l_str.
    destruct name as [|d name]; [now split|].
    cbn [has_char] in Hn. apply orb_false_iff in Hn as [Hd _].
    rewrite Ascii.eqb_sym in Hd. rewrite Hd. now split.
  - rewrite !app_cons. destruct (Ascii.eqb c1 ":") eqn:Hc1; [|now split].
    repeat split. destruct rest as [|c2 rest]; [|exact He].
    apply Ascii.eqb_eq in Hc1. subst c1. discriminate.
Qed.

(** The directory of [base ++ name] is [base] again. *)
Lemma base_directory_child base name :
  ends_with_slash base = true ->
  slash_free name = true -> has_char ":" name = false ->
  (String.length base <= 255)%nat ->
  base_directory (base +:+ name) = base.
Proof.
  intros He Hs Hc Hlen.
  destruct (after_drive_app base name He Hc) as (Ha & Hd & Hr).
  rewrite base_directory_parts, Ha, Hd.
  rewrite last_slash_app by exact Hs. rewrite (last_slash_ends _ Hr).
  assert (String.length (after_drive base) <= String.length base)%nat as Hle.
  { unfold after_drive. destruct base as [|c0 [|c1 rest]]; try lia.
    destruct (Ascii.eqb c1 ":"); cbn [String.length]; lia. }
  rewrite Nat.min_l by lia. rewrite substring_0_app.
  unfold dir_part. rewrite Hr.
  rewrite splitpath_drive. unfold after_drive in *.
  destruct base as [|c0 [|c1 rest]]; [discriminate|reflexivity|].
  destruct (Ascii.eqb c1 ":") eqn:Hc1.
  - apply Ascii.eqb_eq in Hc1. subst c1.
    destruct rest; [discriminate | reflexivity].
  - reflexivity.
Qed.

Lemma last_dot_app (a b : string) :
  last_dot (a +:+ b)
  = match last_dot b with
    | Some n => Some (String.length a + n)%nat
    | None => last_dot a
    end.
Proof.
  induction a as [|c a IH].
  - rewrite app_nil_l_str. now destruct (last_dot b).
  - rewrite app_cons. cbn [last_dot String.length]. rewrite IH.
    now destruct (last_dot b).
Qed.

Lemma last_dot_lt s d : last_dot s = Some d -> (d < String.length s)%nat.
Proof.
  revert d. induction s as [|c s IH]; [discriminate|].
  intros d. cbn [last_dot String.length].
  destruct (last_dot s) as [n|].
  - intros [= <-]. specialize (IH n eq_refl). lia.
  - destruct (Ascii.eqb c "."); [intros [= <-]; lia | discriminate].
Qed.

Lemma substring_skip (a b : string) n k :
  substring (String.length a + n) k (a +:+ b) = substring n k b.
Proof.
  induction a as [|c a IH]; [reflexivity|].
  rewrite app_cons. cbn [String.length Nat.add substring]. exact IH.
Qed.

Lemma substring_all s : substring 0 (String.length s) s = s.
Proof. rewrite <- (app_empty_r s) at 2. apply substring_0_app. Qed.

Lemma splitpath_fname path :
  pp_fname (_splitpath path)
  = let rest := after_drive path in
    let slash := last_slash rest in
    match last_dot rest with
    | Some dot =>
        if (slash <=? dot)%nat
        then substring slash (Nat.min (dot - slash) 255) rest
        else substring slash (Nat.min (String.length rest - slash) 255) rest
    | None => substring slash (Nat.min (String.length rest - slash) 255) rest
    end.
Proof.
  unfold _splitpath, after_drive.
  destruct path as [|c0 [|c1 rest]];
    [| |destruct (Ascii.eqb c1 ":")]; cbv zeta;
    destruct (last_dot _); try destruct (_ <=? _)%nat; reflexivity.
Qed.

Lemma splitpath_ext path :
  pp_ext (_splitpath path)
  = let rest := after_drive path in
    match last_dot rest with
    | Some dot =>
        if (last_slash rest <=? dot)%nat
        then substring dot (Nat.min (String.length rest - dot) 255) rest
        else EmptyString
    | None => EmptyString
    end.
Proof.
  unfold _splitpath, after_drive.
  destruct path as [|c0 [|c1 rest]];
    [| |destruct (Ascii.eqb c1 ":")]; cbv zeta;
    destruct (last_dot _); try destruct (_ <=? _)%nat; reflexivity.
Qed.

(** The file name of [base ++ name] is [name], cut at its last dot. *)
Lemma splitpath_child base name :
  ends_with_slash base = true ->
  slash_free name = true -> has_char ":" name = false ->
  (String.length name <= 255)%nat ->
  pp_fname (_splitpath (base +:+ name))
  = match last_dot name with
    | Some d => substring 0 d name
    | None => name
    end
  /\ pp_ext (_splitpath (base +:+ name))
     = match last_dot name with
       | Some d => substring d (String.length name - d) name
       | None => EmptyString
       end.
Proof.
  intros He Hs Hc Hlen.
  destruct (after_drive_app base name He Hc) as (Ha & _ & Hr).
  rewrite splitpath_fname, splitpath_ext, Ha. cbv zeta.
  rewrite last_slash_app by exact Hs. rewrite (last_slash_ends _ Hr).
  rewrite last_dot_app, length_app.
  set (r := after_drive base) in *.
  destruct (last_dot name) as [d|] eqn:Hd.
  - pose proof (last_dot_lt _ _ Hd) as Hlt.
    assert ((String.length r <=? String.length r + d)%nat = true) as ->
      by (apply Nat.leb_le; lia).
    replace (String.length r + d - String.length r)%nat with d by lia.
    replace (String.length r + String.length name - (String.length r + d))%nat
      with (String.length name - d)%nat by lia.
    rewrite !Nat.min_l by lia.
    rewrite <- (Nat.add_0_r (String.length r)) at 1.
    now rewrite !substring_skip.
  - assert (substring (String.length r)
              (Nat.min (String.length r + String.length name - String.length r)
                       255) (r +:+ name) = name) as Hname.
    { replace (String.length r + String.length name - String.length r)%nat
        with (String.length name) by lia.
      rewrite Nat.min_l by lia.
      rewrite <- (Nat.add_0_r (String.length r)) at 1.
      rewrite substring_skip. apply substring_all. }
    destruct (last_dot r) as [k|] eqn:Hk; [|now rewrite Hname].
    pose proof (last_dot_lt _ _ Hk) as Hlt.
    assert ((String.length r <=? k)%nat = false) as ->
      by (apply Nat.leb_gt; lia).
    now rewrite Hname.
Qed.

(** *** The buffers of the path components *)

Lemma length_substring s : forall n k,
  (String.length (substring n k s) <= k)%nat.
Proof.
  induction s as [|c s IH]; intros n k.
  - destruct n, k; cbn; lia.
  - destruct n as [|n].
    + destruct k as [|k]; [cbn; lia|].
      rewrite substring_0_S. cbn [String.length]. specialize (IH O k). lia.
    + cbn [substring]. apply IH.
Qed.

(** [exePath] holds what [GetModuleFileName] leaves in it. *)
Lemma image_buffer_fits image :
  (String.length (image_buffer image) < MAX_PATH)%nat.
Proof.
  unfold image_buffer. destruct (String.length image <? MAX_PATH)%nat eqn:E.
  - now apply Nat.ltb_lt.
  - pose proof (length_substring image 0 (MAX_PATH - 1)).
    unfold MAX_PATH in *. lia.
Qed.

(** [drive], [dir], [fname] and [ext] hold what [_splitpath] writes. *)
Lemma splitpath_fits path :
  (String.length (pp_drive (_splitpath path)) < _MAX_DRIVE)%nat
  /\ (String.length (pp_dir (_splitpath path)) < _MAX_DIR)%nat
  /\ (String.length (pp_fname (_splitpath path)) < _MAX_FNAME)%nat
  /\ (String.length (pp_ext (_splitpath path)) < _MAX_EXT)%nat.
Proof.
  rewrite splitpath_drive, splitpath_dir, splitpath_fname, splitpath_ext.
  unfold _MAX_DRIVE, _MAX_DIR, _MAX_FNAME, _MAX_EXT. cbv zeta.
  split; [|split; [|split]].
  - destruct path as [|c0 [|c1 rest]]; try (cbn; lia).
    destruct (Ascii.eqb c1 ":"); cbn; lia.
  - pose proof (length_substring (after_drive path) 0
                  (Nat.min (last_slash (after_drive path)) 255)). lia.
  - repeat case_goal;
      match goal with
      | |- (String.length (substring ?n ?k ?s) < _)%nat =>
          pose proof (length_substring s n k); lia
      end.
  - repeat case_goal; try (cbn; lia);
      match goal with
      | |- (String.length (substring ?n ?k ?s) < _)%nat =>
          pose proof (length_substring s n k); lia
      end.
Qed.

(** [cwd] holds what [_makepath] writes. *)
Lemma base_directory_fits exePath :
  (String.length (base_directory exePath) < MAX_PATH)%nat.
Proof.
  destruct (splitpath_fits exePath) as (Hdrive & Hdir & _).
  unfold base_directory. rewrite makepath_parts, length_app.
  assert (String.length (drive_part (pp_drive (_splitpath exePath))) <= 2)%nat.
  { destruct (pp_drive _); cbn; lia. }
  assert (String.length (dir_part (pp_dir (_splitpath exePath)))
          <= S (String.length (pp_dir (_splitpath exePath))))%nat.
  { unfold dir_part. destruct (pp_dir _) as [|c d]; [cbn; lia|].
    destruct (ends_with_slash _); [lia|]. rewrite length_app. cbn. lia. }
  unfold _MAX_DIR, MAX_PATH in *. lia.
Qed.

(** ** Every run ends at one of the stages *)

Lemma launcher_run m args os p : run_of m os p (launcher m args os p).
Proof.
  destruct (os_GetModuleFileName os) as [image|code] eqn:Himage.
  2: { rewrite (run_self_location_failed m args os p code Himage).
       now constructor. }
  destruct (decide (image = EmptyString)) as [->|Hne].
  { rewrite (run_empty_image m args os p Himage). now constructor. }
  destruct (os_SetCurrentDirectory os (base_directory (image_buffer image)))
    as [[]|code] eqn:Hpin.
  2: { rewrite (run_pin_failed m args os p image Himage Hne code Hpin).
       now constructor. }
  destruct (Nat.le_gt_cases MAX_PATH
              (String.length
                 (interpreter_path m (base_directory (image_buffer image)))))
    as [Hlong|Hfit].
  { rewrite (run_overrun m args os p image Himage Hne () Hpin Hlong).
    now constructor. }
  rewrite (run_resolved m args os p image Himage Hne Hpin Hfit).
  destruct (os_GetFileAttributes os _) as [attrs|code] eqn:Hattrs.
  - destruct (attrs =? INVALID_FILE_ATTRIBUTES) eqn:E.
    + apply Z.eqb_eq in E. subst attrs.
      replace (set_cwd _ (located image p))
        with (probed os (interpreter_path m
                           (base_directory (image_buffer image)))
                (pinned image p))
        by (unfold probed; now rewrite Hattrs).
      apply run_no_interpreter; try assumption.
      unfold attributes. now rewrite Hattrs.
    + apply Z.eqb_neq in E. cbv zeta.
      assert (attributes os (interpreter_path m
                (base_directory (image_buffer image)))
              <> INVALID_FILE_ATTRIBUTES) as Hok
        by (unfold attributes; now rewrite Hattrs).
      fold (pinned image p).
      destruct (os_CreateProcess os _) as [[hProcess hThread]|code] eqn:Hcp.
      * now apply (run_child m os p image hProcess hThread).
      * now apply (run_no_child m os p image code).
  - replace (set_last_error code (set_cwd _ (located image p)))
      with (probed os (interpreter_path m
                         (base_directory (image_buffer image)))
              (pinned image p))
      by (unfold probed; now rewrite Hattrs).
    apply run_no_interpreter; try assumption.
    unfold attributes. now rewrite Hattrs.
Qed.

(** ** Observing the end of a run *)

Ltac states :=
  unfold after_spawn, reported, probed, pinned, located, env_prepared,
    spawned, closed, child_of.

Ltac fields :=
  cbn [final exit_code p_cwd p_env p_last_error p_handles p_children p_out
       p_waited set_cwd set_env set_last_error set_handles add_child add_out
       add_waited ch_app ch_cmdline ch_inherit ch_flags ch_env ch_cwd].

Lemma drop_own {A} (l : list A) : drop (length l) l = [].
Proof. apply drop_all. Qed.

Lemma drop_own_app {A} (l k : list A) : drop (length l) (l ++ k) = k.
Proof. apply drop_app_length. Qed.

Lemma drop_own_app2 {A} (l : list A) a b :
  drop (length l) ((l ++ [a]) ++ [b]) = [a; b].
Proof. rewrite <- app_assoc. apply drop_app_length. Qed.

Ltac observe :=
  unfold created, shown; states; repeat case_goal; fields;
  rewrite ?drop_own, ?drop_own_app, ?drop_own_app2.

Lemma messages_report m text : length (messages (report m text)) = 1%nat.
Proof. now destruct m. Qed.

Lemma search_path_eq base :
  search_path base = base +:+ "site_packages;" +:+ base.
Proof. unfold search_path, packages_directory. now rewrite app_assoc_str. Qed.

Lemma child_command_line_eq m base :
  child_command_line m base
  = q +:+ base +:+ "base_env\" +:+ interpreter m +:+ q +:+ " " +:+ q
      +:+ base +:+ "boot.py" +:+ q.
Proof.
  unfold child_command_line, interpreter_path, bootstrap_script_path.
  now rewrite !app_assoc_str.
Qed.

Lemma plus_none_of c s :
  s <> EmptyString -> has_char c s = false -> matches (Plus (NoneOf c)) s.
Proof.
  induction s as [|d s IH]; [congruence|]. intros _ H.
  cbn [has_char] in H. apply orb_false_iff in H as [Hd Hs].
  assert (d <> c) as Hne.
  { intros ->. now rewrite Ascii.eqb_refl in Hd. }
  destruct s as [|e s].
  - apply matches_plus_one. now constructor.
  - change (String d (String e s)) with (String d EmptyString +:+ String e s).
    apply matches_plus_more; [now constructor | now apply IH].
Qed.

(** A base directory [pfx\] without quotes gives a command line of the
    pattern. *)
Lemma command_line_matches m pfx :
  pfx <> EmptyString -> has_char dquote pfx = false ->
  matches command_line_pattern (child_command_line m (pfx +:+ "\")).
Proof.
  intros Hne Hq.
  assert (child_command_line m (pfx +:+ "\")
          = q +:+ pfx +:+ "\base_env\python"
              +:+ match m with Release => "w" | Debug => EmptyString end
              +:+ (".exe" +:+ q +:+ " " +:+ q)
              +:+ pfx +:+ ("\boot.py" +:+ q)) as ->.
  { rewrite child_command_line_eq. rewrite !app_assoc_str. now destruct m. }
  unfold command_line_pattern.
  repeat (apply matches_cat; [|]);
    try apply matches_lit; try (now apply plus_none_of).
  destruct m; [apply matches_opt_take, matches_lit | apply matches_opt_skip].
Qed.

Lemma fully_qualified_app base sfx :
  fully_qualified base = true -> fully_qualified (base +:+ sfx) = true.
Proof.
  destruct base as [|c0 [|c1 [|c2 rest]]]; try discriminate.
  - cbn [fully_qualified]. rewrite !app_cons, app_nil_l_str.
    rewrite andb_false_r, orb_false_r. intros H.
    cbn [fully_qualified]. now rewrite H.
  - now rewrite !app_cons.
Qed.

Lemma created_reported {A} m text (a : A) p q1 :
  p_children q1 = p_children p ->
  created p (Done a (reported m text q1)) = [].
Proof.
  intros H. unfold created. cbn [final].
  assert (p_children (reported m text q1) = p_children p) as ->
    by (destruct m; exact H).
  apply drop_own.
Qed.

Lemma created_after_spawn m os p c hProcess hThread q3 :
  p_children q3 = p_children p ->
  created p (after_spawn m os hProcess hThread (spawned c hProcess hThread q3))
  = [c].
Proof.
  intros H. unfold created.
  assert (p_children (final (after_spawn m os hProcess hThread
                               (spawned c hProcess hThread q3)))
          = p_children p ++ [c]) as ->.
  { rewrite <- H. destruct m; unfold after_spawn; repeat case_goal;
      reflexivity. }
  apply drop_own_app.
Qed.

Lemma shown_after_spawn m os p c hProcess hThread q3 :
  p_out q3 = p_out p ->
  shown p (after_spawn m os hProcess hThread (spawned c hProcess hThread q3))
  = [].
Proof.
  intros H. unfold shown.
  assert (p_out (final (after_spawn m os hProcess hThread
                          (spawned c hProcess hThread q3)))
          = p_out p) as ->.
  { rewrite <- H. destruct m; unfold after_spawn; repeat case_goal;
      reflexivity. }
  apply drop_own.
Qed.

Lemma env_after_spawn m os c hProcess hThread q3 :
  p_env (final (after_spawn m os hProcess hThread
                  (spawned c hProcess hThread q3))) = p_env q3.
Proof. destruct m; unfold after_spawn; repeat case_goal; reflexivity. Qed.

Lemma children_env_prepared os base image p :
  p_children (env_prepared os base (pinned image p)) = p_children p.
Proof. observe; reflexivity. Qed.

Lemma out_env_prepared os base image p :
  p_out (env_prepared os base (pinned image p)) = p_out p.
Proof. observe; reflexivity. Qed.

Section Stages.
Variables (m : Mode) (args : Args) (os : OS) (p : Proc) (image : string).

Local Abbreviation base := (base_directory (image_buffer image)).
Local Abbreviation r := (launcher m args os p).

Hypothesis self_located : os_GetModuleFileName os = Succeeds image.
Hypothesis image_nonempty : image <> EmptyString.
Hypothesis directory_pinned : os_SetCurrentDirectory os base = Succeeds tt.
Hypothesis paths_fit :
  (String.length (interpreter_path m base) < MAX_PATH)%nat.

Lemma run_missing :
  attributes os (interpreter_path m base) = INVALID_FILE_ATTRIBUTES ->
  r = Done 1 (reported m (not_found_text (interpreter_path m base))
                (probed os (interpreter_path m base) (pinned image p))).
Proof.
  intros H.
  rewrite (run_resolved m args os p image self_located image_nonempty
             directory_pinned paths_fit).
  unfold attributes, probed, pinned in *.
  destruct (os_GetFileAttributes os _) as [attrs|code]; [|reflexivity].
  subst attrs. reflexivity.
Qed.

(** C4. When the attributes query on the interpreter path answers
    [INVALID_FILE_ATTRIBUTES], the launcher exits with code 1 after one
    report, whose text names the interpreter path and says to check
    [base_env]; no process has been created and the environment is the
    inherited one. *)
Theorem missing_interpreter_reported :
  attributes os (interpreter_path m base) = INVALID_FILE_ATTRIBUTES ->
  exit_code r = Some 1
  /\ shown p r
     = report m
         ("Python environment not found at:" +:+ nl
          +:+ interpreter_path m base +:+ nl +:+ nl
          +:+ "Please ensure base_env is configured correctly.")
  /\ length (messages (shown p r)) = 1%nat
  /\ created p r = []
  /\ p_env (final r) = p_env p.
Proof.
  intros H. rewrite (run_missing H).
  assert (shown p (Done 1 (reported m (not_found_text (interpreter_path m base))
            (probed os (interpreter_path m base) (pinned image p))))
          = report m (not_found_text (interpreter_path m base))) as Hshown.
  { unfold shown. cbn [final]. rewrite p_out_reported.
    assert (p_out (probed os (interpreter_path m base) (pinned image p))
            = p_out p) as -> by (observe; reflexivity).
    apply drop_own_app. }
  rewrite Hshown. repeat split.
  - apply messages_report.
  - destruct m; observe; reflexivity.
  - destruct m; observe; reflexivity.
Qed.

Hypothesis interpreter_present :
  attributes os (interpreter_path m base) <> INVALID_FILE_ATTRIBUTES.

Local Abbreviation p3 := (env_prepared os base (pinned image p)).
Local Abbreviation child := (child_of m base p3).

Lemma run_present :
  r = match os_CreateProcess os child with
      | Succeeds (hProcess, hThread) =>
          after_spawn m os hProcess hThread
            (spawned child hProcess hThread p3)
      | Fails code =>
          Done 1 (reported m (launch_failed_text code)
                    (set_last_error code p3))
      end.
Proof.
  rewrite (run_resolved m args os p image self_located image_nonempty
             directory_pinned paths_fit).
  pose proof interpreter_present as H. unfold attributes in H.
  destruct (os_GetFileAttributes os _) as [attrs|code]; [|congruence].
  apply Z.eqb_neq in H. rewrite H. reflexivity.
Qed.

Lemma run_spawn_failed code :
  os_CreateProcess os child = Fails code ->
  r = Done 1 (reported m (launch_failed_text code) (set_last_error code p3)).
Proof. intros H. rewrite run_present. now rewrite H. Qed.

Lemma run_spawned hProcess hThread :
  os_CreateProcess os child = Succeeds (hProcess, hThread) ->
  r = after_spawn m os hProcess hThread (spawned child hProcess hThread p3).
Proof. intros H. rewrite run_present. now rewrite H. Qed.

Lemma env_present : p_env (final r) = p_env p3.
Proof.
  rewrite run_present.
  destruct (os_CreateProcess os child) as [[hProcess hThread]|code].
  - apply env_after_spawn.
  - now destruct m.
Qed.

Lemma created_present : created p r = [] \/ created p r = [child].
Proof.
  rewrite run_present.
  destruct (os_CreateProcess os child) as [[hProcess hThread]|code].
  - right. apply created_after_spawn, children_env_prepared.
  - left. apply created_reported. apply children_env_prepared.
Qed.

(** C2. Once the environment is prepared, and the runtime has made the
    assignment, [PYTHONPATH] is the packages directory, a semicolon and the
    base directory, whatever the inherited environment held: the new
    environment is the inherited one with that one entry overwritten, and it
    is the environment of the child. *)
Theorem search_path_overwritten :
  os_putenv os ("PYTHONPATH=" +:+ base +:+ "site_packages;" +:+ base) = true ->
  p_env (final r)
  = <["PYTHONPATH" := base +:+ "site_packages;" +:+ base]> (p_env p)
  /\ p_env (final r) !! "PYTHONPATH"
     = Some (base +:+ "site_packages;" +:+ base)
  /\ (forall name, name <> "PYTHONPATH" ->
        p_env (final r) !! name = p_env p !! name)
  /\ (forall c, c ∈ created p r ->
        ch_env c !! "PYTHONPATH" = Some (base +:+ "site_packages;" +:+ base)).
Proof.
  intros Hput. rewrite <- search_path_eq in *.
  assert (p_env p3 = <["PYTHONPATH" := search_path base]> (p_env p)) as Henv.
  { unfold env_prepared. rewrite Hput. destruct m; observe; reflexivity. }
  rewrite env_present, Henv. repeat split.
  - apply lookup_insert_eq.
  - intros name Hname. now apply lookup_insert_ne.
  - intros c Hc.
    destruct created_present as [E|E]; rewrite E in Hc.
    + now apply elem_of_nil in Hc.
    + apply list_elem_of_singleton in Hc. subst c.
      cbn [child_of ch_env]. rewrite Henv. apply lookup_insert_eq.
Qed.

(** C9. Environment preparation has no failure branch.  Whatever [_putenv]
    answers, the run goes on to [CreateProcess] and ends as that call
    decides.  When [_putenv] has failed, nothing is shown for it, the
    environment stays the inherited one, and that is the environment the
    child gets: no search path unless one was inherited. *)
Theorem environment_failure_ignored :
  match os_CreateProcess os child with
  | Succeeds _ => created p r = [child] /\ shown p r = []
  | Fails code =>
      created p r = [] /\ shown p r = report m (launch_failed_text code)
      /\ exit_code r = Some 1
  end
  /\ (os_putenv os ("PYTHONPATH=" +:+ base +:+ "site_packages;" +:+ base)
        = false ->
      p_env (final r) = p_env p
      /\ ch_env child = p_env p
      /\ (p_env p !! "PYTHONPATH" = None ->
          ch_env child !! "PYTHONPATH" = None)).
Proof.
  split.
  - rewrite run_present.
    destruct (os_CreateProcess os child) as [[hProcess hThread]|code].
    + split; [apply created_after_spawn, children_env_prepared
             | apply shown_after_spawn, out_env_prepared].
    + repeat split; destruct m; observe; reflexivity.
  - intros Hput. rewrite <- search_path_eq in Hput.
    assert (p_env p3 = p_env p) as Henv.
    { unfold env_prepared. rewrite Hput. destruct m; observe; reflexivity. }
    rewrite env_present. cbn [child_of ch_env]. rewrite Henv. auto.
Qed.

(** C3. The command line given to [CreateProcess] is the quoted interpreter
    path, a blank and the quoted script path, both built on the base
    directory, with no application name beside it.  For a fully qualified
    image path of backslashes and no quote, it matches the pattern and both
    paths are fully qualified. *)
Theorem command_line_composed hProcess hThread :
  os_CreateProcess os child = Succeeds (hProcess, hThread) ->
  exists c,
    created p r = [c]
    /\ ch_app c = None
    /\ ch_cmdline c
       = q +:+ base +:+ "base_env\" +:+ interpreter m +:+ q +:+ " " +:+ q
           +:+ base +:+ "boot.py" +:+ q
    /\ (fully_qualified image = true ->
        has_char "/" image = false -> has_char dquote image = false ->
        matches command_line_pattern (ch_cmdline c)
        /\ fully_qualified (base +:+ "base_env\" +:+ interpreter m) = true
        /\ fully_qualified (base +:+ "boot.py") = true).
Proof.
  intros Hcp. exists child. rewrite (run_spawned _ _ Hcp).
  split; [apply created_after_spawn, children_env_prepared|].
  split; [reflexivity|].
  split; [apply child_command_line_eq|].
  intros Hfq Hslash Hquote. cbn [child_of ch_cmdline].
  rewrite <- fully_qualified_image_buffer in Hfq.
  destruct (base_directory_qualified _ Hfq) as [Hbase Hends].
  split; [|split; now apply fully_qualified_app].
  destruct (ends_with_backslash base Hends) as [pfx Hpfx].
  { apply has_char_base_directory; try reflexivity.
    now apply has_char_image_buffer. }
  assert (has_char dquote base = false) as Hq.
  { apply has_char_base_directory; try reflexivity.
    now apply has_char_image_buffer. }
  rewrite Hpfx in *. apply command_line_matches.
  - intros ->. discriminate.
  - rewrite has_char_app in Hq. now apply orb_false_iff in Hq as [-> _].
Qed.

(** C5. When [CreateProcess] fails, the launcher exits with code 1 after one
    report: [Failed to launch process.] and, on the next line, the error
    code of that failure, printed with [%d].  Every report of the launcher
    is one of four texts, and this one alone carries a number taken from the
    system. *)
Theorem spawn_failure_reported code :
  os_CreateProcess os child = Fails code ->
  (exit_code r = Some 1
   /\ shown p r
      = report m ("Failed to launch process." +:+ nl +:+ "Error code: "
                  +:+ pretty (as_int code))
   /\ (0 <= code < 2 ^ 31 -> as_int code = code)
   /\ length (messages (shown p r)) = 1%nat
   /\ created p r = [])
  /\ (forall os' p',
        let r' := launcher m args os' p' in
        shown p' r' = []
        \/ shown p' r' = report m "Failed to get executable path."
        \/ shown p' r' = report m "Failed to set current directory."
        \/ (exists path,
              shown p' r'
              = report m ("Python environment not found at:" +:+ nl
                          +:+ path +:+ nl +:+ nl
                          +:+ "Please ensure base_env is configured correctly."))
        \/ (exists c code',
              os_CreateProcess os' c = Fails code'
              /\ shown p' r'
                 = report m ("Failed to launch process." +:+ nl
                             +:+ "Error code: " +:+ pretty (as_int code')))).
Proof.
  intros Hcp. split.
  - rewrite (run_spawn_failed _ Hcp).
    assert (shown p (Done 1 (reported m (launch_failed_text code)
                               (set_last_error code p3)))
            = report m (launch_failed_text code)) as Hshown.
    { unfold shown. cbn [final]. rewrite p_out_reported.
      assert (p_out (set_last_error code p3) = p_out p) as ->
        by (observe; reflexivity).
      apply drop_own_app. }
    rewrite Hshown. repeat split.
    + apply as_int_small.
    + apply messages_report.
    + destruct m; observe; reflexivity.
  - intros os' p' r'. subst r'.
    destruct (launcher_run m args os' p')
      as [c|H|i c H Hn Hp|i H Hn Hp Hl|i b H Hn Hp Hf Ha
          |i c b q3 H Hn Hp Hf Ha Hc|i hP hT b q3 H Hn Hp Hf Ha Hc].
    + right; left. unfold shown. cbn [final]. rewrite p_out_reported.
      apply drop_own_app.
    + right; left. unfold shown. cbn [final]. rewrite p_out_reported.
      apply drop_own_app.
    + right; right; left. unfold shown. cbn [final].
      rewrite p_out_reported.
      assert (p_out (set_last_error c (located i p')) = p_out p') as ->
        by (observe; reflexivity).
      apply drop_own_app.
    + left. observe; reflexivity.
    + right; right; right; left. eexists.
      unfold shown. cbn [final]. rewrite p_out_reported.
      assert (p_out (probed os' (interpreter_path m b) (pinned i p'))
              = p_out p') as -> by (observe; reflexivity).
      apply drop_own_app.
    + right; right; right; right. exists (child_of m b q3), c.
      split; [exact Hc|].
      unfold shown. cbn [final]. rewrite p_out_reported.
      assert (p_out (set_last_error c q3) = p_out p') as ->
        by (subst q3; observe; reflexivity).
      apply drop_own_app.
    + left. subst q3 b. destruct m; observe; reflexivity.
Qed.

(** C7. After a successful [CreateProcess]: a release build closes the
    process handle and the thread handle and exits with code 0 without
    waiting, whatever the child does; a debug build waits on the process
    handle, and when the child has exited, with whatever status, closes the
    thread handle and exits with code 0; as long as the child has not
    exited it stays in the wait. *)
Theorem after_successful_spawn hProcess hThread :
  os_CreateProcess os child = Succeeds (hProcess, hThread) ->
  match m with
  | Release =>
      exit_code r = Some 0
      /\ p_waited (final r) = p_waited p
      /\ (hProcess ∉ p_handles (final r))
      /\ (hThread ∉ p_handles (final r))
  | Debug =>
      match os_child os hProcess with
      | Some status =>
          exit_code r = Some 0
          /\ p_waited (final r) = p_waited p ++ [hProcess]
          /\ (hThread ∉ p_handles (final r))
      | None =>
          exit_code r = None
          /\ r = Stuck Blocked (spawned child hProcess hThread p3)
      end
  end.
Proof.
  intros Hcp. rewrite (run_spawned _ _ Hcp).
  assert (p_waited p3 = p_waited p) as Hwaited by (observe; reflexivity).
  destruct m.
  - split; [reflexivity|]. split; [exact Hwaited|].
    unfold after_spawn, closed, spawned. fields.
    split; apply not_elem_of_difference.
    + left. apply not_elem_of_difference. right. now apply elem_of_singleton.
    + right. now apply elem_of_singleton.
  - unfold after_spawn. destruct (os_child os hProcess).
    + split; [reflexivity|].
      split; [unfold closed, spawned; fields; now rewrite <- Hwaited|].
      unfold closed, spawned. fields.
      apply not_elem_of_difference. right. now apply elem_of_singleton.
    + split; reflexivity.
Qed.
End Stages.

(** ** The exit code *)

Lemma exit_after_spawn m os hProcess hThread p :
  exit_code (after_spawn m os hProcess hThread p)
  = match m with
    | Release => Some 0
    | Debug =>
        match os_child os hProcess with
        | Some _ => Some 0
        | None => None
        end
    end.
Proof. unfold after_spawn. destruct m; [|destruct (os_child _ _)]; reflexivity. Qed.

(** C1, as the code has it.  In every run whose interpreter path fits its
    buffer: when no child is created the launcher exits with code 1; when one
    is created, a release build exits with code 0, and a debug build exits
    with code 0 if the child exits, whatever its status, and does not exit if
    the child never does.  So the exit code is 0 exactly when the child was
    created, in a release build and in every debug run whose wait returns.
    Each of the four failures (the image path is not found, the working
    directory is not set, the interpreter is missing, the process is not
    created) ends the run with code 1 and no child. *)
Theorem exit_code_by_stage m args os p :
  (forall image,
     os_GetModuleFileName os = Succeeds image ->
     (String.length (interpreter_path m (base_directory (image_buffer image)))
      < MAX_PATH)%nat) ->
  let r := launcher m args os p in
  (created p r = [] -> exit_code r = Some 1)
  /\ (created p r <> [] ->
      exists c hProcess hThread,
        created p r = [c]
        /\ os_CreateProcess os c = Succeeds (hProcess, hThread)
        /\ exit_code r
           = match m with
             | Release => Some 0
             | Debug =>
                 match os_child os hProcess with
                 | Some _ => Some 0
                 | None => None
                 end
             end)
  /\ (m = Release \/ (forall h, os_child os h <> None) ->
      exit_code_contract m args os p)
  /\ ((exists code, os_GetModuleFileName os = Fails code)
      \/ (exists image code,
            os_GetModuleFileName os = Succeeds image
            /\ os_SetCurrentDirectory os (base_directory (image_buffer image))
               = Fails code)
      \/ (exists image,
            let base := base_directory (image_buffer image) in
            os_GetModuleFileName os = Succeeds image
            /\ os_SetCurrentDirectory os base = Succeeds tt
            /\ attributes os (interpreter_path m base)
               = INVALID_FILE_ATTRIBUTES)
      \/ (exists image code,
            let base := base_directory (image_buffer image) in
            os_GetModuleFileName os = Succeeds image
            /\ os_SetCurrentDirectory os base = Succeeds tt
            /\ attributes os (interpreter_path m base)
               <> INVALID_FILE_ATTRIBUTES
            /\ os_CreateProcess os
                 (child_of m base (env_prepared os base (pinned image p)))
               = Fails code) ->
      exit_code r = Some 1 /\ created p r = []).
Proof.
  intros Hfit r.
  assert (forall image,
            os_GetModuleFileName os = Succeeds image ->
            image = EmptyString -> exit_code r = Some 1 /\ created p r = [])
    as Hempty.
  { intros image Himage ->. subst r.
    rewrite (run_empty_image m args os p Himage).
    split; [reflexivity | now apply created_reported]. }
  assert ((created p r = [] /\ exit_code r = Some 1)
          \/ (exists c hProcess hThread,
                created p r = [c]
                /\ os_CreateProcess os c = Succeeds (hProcess, hThread)
                /\ exit_code r
                   = match m with
                     | Release => Some 0
                     | Debug =>
                         match os_child os hProcess with
                         | Some _ => Some 0
                         | None => None
                         end
                     end)) as Hcases.
  { subst r.
    destruct (launcher_run m args os p)
      as [c|H|i c H Hn Hp|i H Hn Hp Hl|i b H Hn Hp Hf Ha
          |i c b q3 H Hn Hp Hf Ha Hc|i hP hT b q3 H Hn Hp Hf Ha Hc].
    - left. split; [now apply created_reported | reflexivity].
    - left. split; [now apply created_reported | reflexivity].
    - left. split; [apply created_reported; observe | ]; reflexivity.
    - specialize (Hfit i H). lia.
    - left. split; [apply created_reported; observe | ]; reflexivity.
    - left. split; [apply created_reported; subst q3; observe | ]; reflexivity.
    - right. exists (child_of m b q3), hP, hT. subst q3 b.
      split; [apply created_after_spawn, children_env_prepared|].
      split; [exact Hc | apply exit_after_spawn]. }
  split; [|split; [|split]].
  - intros Hnone. destruct Hcases as [[_ H]|(c & hP & hT & H & _)];
      [exact H | congruence].
  - intros Hsome. destruct Hcases as [[H _]|H]; [congruence | exact H].
  - intros Hwait. unfold exit_code_contract. fold r.
    destruct Hcases as [[Hc He]|(c & hP & hT & Hc & _ & He)].
    + rewrite Hc, He. split; [split; congruence | reflexivity].
    + assert (exit_code r = Some 0) as ->.
      { rewrite He. destruct Hwait as [->|Hwait]; [reflexivity|].
        destruct m; [reflexivity|].
        specialize (Hwait hP). now destruct (os_child os hP). }
      rewrite Hc. split; [split; congruence | congruence].
  - intros [(code & Himage)
           |[(image & code & Himage & Hpin)
            |[(image & Himage & Hpin & Hattrs)
             |(image & code & Himage & Hpin & Hattrs & Hcp)]]].
    + subst r. rewrite (run_self_location_failed m args os p code Himage).
      split; [reflexivity | now apply created_reported].
    + destruct (decide (image = EmptyString)) as [E|Hne]; [now eauto|].
      subst r. rewrite (run_pin_failed m args os p image Himage Hne code Hpin).
      split; [reflexivity | apply created_reported; observe; reflexivity].
    + destruct (decide (image = EmptyString)) as [E|Hne]; [now eauto|].
      subst r.
      rewrite (run_missing m args os p image Himage Hne Hpin
                 (Hfit image Himage) Hattrs).
      split; [reflexivity | apply created_reported; observe; reflexivity].
    + destruct (decide (image = EmptyString)) as [E|Hne]; [now eauto|].
      subst r.
      rewrite (run_spawn_failed m args os p image Himage Hne Hpin
                 (Hfit image Himage) Hattrs code Hcp).
      split; [reflexivity | apply created_reported].
      apply children_env_prepared.
Qed.

(** The contract does not hold for every invocation: a debug build whose
    child is a server creates the child and never exits. *)
Lemma exit_code_contract_fails_for_server :
  ~ exit_code_contract Debug no_args server_os app_proc.
Proof.
  intros [[_ H] _].
  assert (created app_proc (launcher Debug no_args server_os app_proc) <> [])
    as Hcreated by (vm_compute; discriminate).
  specialize (H Hcreated). vm_compute in H. discriminate.
Qed.

(** ** The arguments *)

(** C6. Two invocations that differ in their arguments only run alike: the
    same exit code, the same child with the same command line, the same
    environment; no entry point reads its arguments, in either build and in
    the shipped copy. *)
Theorem arguments_ignored m (args1 args2 : Args) os p :
  let r1 := launcher m args1 os p in
  let r2 := launcher m args2 os p in
  r1 = r2
  /\ exit_code r1 = exit_code r2
  /\ map ch_cmdline (created p r1) = map ch_cmdline (created p r2)
  /\ p_env (final r1) = p_env (final r2)
  /\ (forall argc argv argc' argv',
        main argc argv os p = main argc' argv' os p)
  /\ (forall hInstance hPrevInstance lpCmdLine nCmdShow
             hInstance' hPrevInstance' lpCmdLine' nCmdShow',
        WinMain hInstance hPrevInstance lpCmdLine nCmdShow os p
        = WinMain hInstance' hPrevInstance' lpCmdLine' nCmdShow' os p
        /\ dist_output.WinMain hInstance hPrevInstance lpCmdLine nCmdShow os p
           = dist_output.WinMain hInstance' hPrevInstance' lpCmdLine'
               nCmdShow' os p).
Proof. repeat split; reflexivity. Qed.

(** ** The base directory and the derived paths *)

Lemma cwd_reported m text p : p_cwd (reported m text p) = p_cwd p.
Proof. now destruct m. Qed.

Lemma cwd_located image p : p_cwd (located image p) = p_cwd p.
Proof. unfold located. now case_goal. Qed.

Lemma cwd_pinned image p :
  p_cwd (pinned image p) = base_directory (image_buffer image).
Proof. reflexivity. Qed.

Lemma cwd_env_prepared os base p : p_cwd (env_prepared os base p) = p_cwd p.
Proof. unfold env_prepared. now case_goal. Qed.

Lemma cwd_after_spawn m os c hProcess hThread q3 :
  p_cwd (final (after_spawn m os hProcess hThread
                  (spawned c hProcess hThread q3))) = p_cwd q3.
Proof. destruct m; unfold after_spawn; repeat case_goal; reflexivity. Qed.

(** C8. The base directory of a fully qualified image path ends with a path
    separator and is fully qualified, and so are the interpreter path, the
    script path and the packages directory, each the base directory with a
    relative path appended.  Splitting such a path again gives back the
    directory it was appended to and the file name that was appended, as long
    as the base directory leaves room for the suffix.  The launcher pins that
    directory and builds the child on it: every child it creates starts
    there, on the command line made of the two derived paths. *)
Theorem base_directory_separated m image :
  fully_qualified image = true ->
  let base := base_directory (image_buffer image) in
  ends_with_slash base = true
  /\ fully_qualified base = true
  /\ fully_qualified (base +:+ "base_env\" +:+ interpreter m) = true
  /\ fully_qualified (base +:+ "boot.py") = true
  /\ fully_qualified (base +:+ "site_packages") = true
  /\ (within_buffers base ->
      let interpreter_parts :=
        _splitpath (base +:+ "base_env\" +:+ interpreter m) in
      let script_parts := _splitpath (base +:+ "boot.py") in
      let packages_parts := _splitpath (base +:+ "site_packages") in
      base_directory (base +:+ "base_env\" +:+ interpreter m)
      = base +:+ "base_env\"
      /\ pp_fname interpreter_parts +:+ pp_ext interpreter_parts
         = interpreter m
      /\ base_directory (base +:+ "boot.py") = base
      /\ pp_fname script_parts = "boot" /\ pp_ext script_parts = ".py"
      /\ base_directory (base +:+ "site_packages") = base
      /\ pp_fname packages_parts = "site_packages"
      /\ pp_ext packages_parts = EmptyString)
  /\ (forall args os p,
        os_GetModuleFileName os = Succeeds image ->
        let r := launcher m args os p in
        (p_cwd (final r) = base \/ p_cwd (final r) = p_cwd p)
        /\ (forall c, c ∈ created p r ->
              p_cwd (final r) = base
              /\ ch_cwd c = base
              /\ ch_cmdline c
                 = q +:+ (base +:+ "base_env\" +:+ interpreter m) +:+ q
                     +:+ " " +:+ q +:+ (base +:+ "boot.py") +:+ q)).
Proof.
  intros Hfq base.
  rewrite <- fully_qualified_image_buffer in Hfq.
  destruct (base_directory_qualified _ Hfq) as [Hbase Hends].
  change (base_directory (image_buffer image)) with base in Hbase, Hends.
  split; [exact Hends|]. split; [exact Hbase|].
  split; [now apply fully_qualified_app|].
  split; [now apply fully_qualified_app|].
  split; [now apply fully_qualified_app|].
  split.
  - unfold within_buffers, MAX_PATH. cbn [String.length]. intros Hlen.
    assert (ends_with_slash (base +:+ "base_env\") = true) as Hends'
      by now rewrite ends_with_slash_app.
    cbv zeta. rewrite <- !app_assoc_str.
    destruct (splitpath_child (base +:+ "base_env\") (interpreter m))
      as [Hf1 He1];
      [exact Hends' | now destruct m | now destruct m
       | destruct m; cbn; lia |].
    destruct (splitpath_child base "boot.py") as [Hf2 He2];
      [exact Hends | reflexivity | reflexivity | cbn; lia |].
    destruct (splitpath_child base "site_packages") as [Hf3 He3];
      [exact Hends | reflexivity | reflexivity | cbn; lia |].
    split.
    { apply base_directory_child.
      - exact Hends'.
      - now destruct m.
      - now destruct m.
      - rewrite length_app. cbn [String.length]. lia. }
    split; [rewrite Hf1, He1; now destruct m|].
    split.
    { apply base_directory_child;
        [exact Hends | reflexivity | reflexivity | lia]. }
    split; [exact Hf2|]. split; [exact He2|].
    split.
    { apply base_directory_child;
        [exact Hends | reflexivity | reflexivity | lia]. }
    split; [exact Hf3 | exact He3].
  - intros args os p Himage r. subst r.
    destruct (launcher_run m args os p)
      as [c|H|i c H Hn Hp|i H Hn Hp Hl|i b H Hn Hp Hf Ha
          |i c b q3 H Hn Hp Hf Ha Hc|i hP hT b q3 H Hn Hp Hf Ha Hc];
      try congruence;
      try (assert (i = image) as -> by congruence).
    + split.
      * right. cbn [final]. now rewrite cwd_reported.
      * intros c' Hc'. rewrite created_reported in Hc' by reflexivity.
        now apply elem_of_nil in Hc'.
    + split.
      * right. cbn [final]. rewrite cwd_reported. apply cwd_located.
      * intros c' Hc'.
        rewrite created_reported in Hc' by (observe; reflexivity).
        now apply elem_of_nil in Hc'.
    + split; [left; reflexivity|].
      intros c' Hc'. unfold created in Hc'. cbn [final] in Hc'.
      assert (p_children (pinned image p) = p_children p) as E
        by (observe; reflexivity).
      rewrite E, drop_own in Hc'. now apply elem_of_nil in Hc'.
    + split.
      * left. cbn [final]. rewrite cwd_reported. unfold probed.
        now case_goal.
      * intros c' Hc'.
        rewrite created_reported in Hc' by (observe; reflexivity).
        now apply elem_of_nil in Hc'.
    + split.
      * left. cbn [final]. rewrite cwd_reported. subst q3.
        cbn [set_last_error p_cwd]. now rewrite cwd_env_prepared.
      * intros c' Hc'.
        rewrite created_reported in Hc'
          by (subst q3; apply children_env_prepared).
        now apply elem_of_nil in Hc'.
    + assert (p_cwd (final (after_spawn m os hP hT
                (spawned (child_of m b q3) hP hT q3))) = base) as Hcwd.
      { rewrite cwd_after_spawn. subst q3. now rewrite cwd_env_prepared. }
      split; [now left|].
      intros c' Hc'.
      rewrite created_after_spawn in Hc'
        by (subst q3; apply children_env_prepared).
      apply list_elem_of_singleton in Hc'. subst c'.
      split; [exact Hcwd|]. split.
      * cbn [child_of ch_cwd]. subst q3. now rewrite cwd_env_prepared.
      * reflexivity.
Qed.

(** ** The fixed buffers *)

Section Buffers.
Variables (m : Mode) (args : Args) (os : OS) (p : Proc) (image : string).

Local Abbreviation base := (base_directory (image_buffer image)).
Local Abbreviation r := (launcher m args os p).

Hypothesis self_located : os_GetModuleFileName os = Succeeds image.
Hypothesis image_nonempty : image <> EmptyString.
Hypothesis directory_pinned : os_SetCurrentDirectory os base = Succeeds tt.

(** C10. No [sprintf] of the launcher checks a length.  When the base
    directory is at most [MAX_PATH] less the longest suffix and its
    terminator, the texts built on it fit the buffers [pythonPath] (of either
    build), [bootScript], [pythonEnv] and [cmdLine].  A run whose interpreter
    path fits never writes past a buffer.  A run whose interpreter path does
    not fit neither cuts nor refuses it: it writes past the end of
    [pythonPath], with nothing shown and no exit code. *)
Theorem path_buffers :
  (within_buffers base ->
   sprintf "pythonPath" MAX_PATH "%sbase_env\pythonw.exe" [ArgS base] os p
   = Done (base +:+ "base_env\pythonw.exe") p
   /\ sprintf "pythonPath" MAX_PATH "%sbase_env\python.exe" [ArgS base] os p
      = Done (base +:+ "base_env\python.exe") p
   /\ sprintf "bootScript" MAX_PATH "%sboot.py" [ArgS base] os p
      = Done (base +:+ "boot.py") p
   /\ sprintf "pythonEnv" (MAX_PATH * 4) "PYTHONPATH=%ssite_packages;%s"
              [ArgS base; ArgS base] os p
      = Done ("PYTHONPATH=" +:+ base +:+ "site_packages;" +:+ base) p
   /\ sprintf "cmdLine" (MAX_PATH * 4)
              (q +:+ "%s" +:+ q +:+ " " +:+ q +:+ "%s" +:+ q)
              [ArgS (base +:+ "base_env\" +:+ interpreter m);
               ArgS (base +:+ "boot.py")] os p
      = Done (q +:+ base +:+ "base_env\" +:+ interpreter m +:+ q +:+ " "
                +:+ q +:+ base +:+ "boot.py" +:+ q) p
   /\ (String.length base + String.length ("base_env\" +:+ interpreter m)
       < MAX_PATH)%nat)
  /\ ((String.length base + String.length ("base_env\" +:+ interpreter m)
       < MAX_PATH)%nat ->
      forall buffer p', r <> Stuck (Overrun buffer) p')
  /\ ((MAX_PATH <= String.length base
                   + String.length ("base_env\" +:+ interpreter m))%nat ->
      r = Stuck (Overrun "pythonPath") (pinned image p)
      /\ exit_code r = None
      /\ shown p r = []
      /\ created p r = []).
Proof.
  assert (String.length (interpreter_path m base)
          = String.length base
            + String.length ("base_env\" +:+ interpreter m))%nat as Hlen
    by (unfold interpreter_path; now rewrite length_app).
  split; [|split].
  - intros Hin.
    pose proof (within_buffers_fits Release base Hin) as HfitR.
    pose proof (within_buffers_fits Debug base Hin) as HfitD.
    pose proof (within_buffers_fits m base Hin) as Hfit.
    split.
    { pose proof (sprintf_pythonPath Release base os p) as E.
      apply Nat.ltb_lt in HfitR. rewrite HfitR in E. exact E. }
    split.
    { pose proof (sprintf_pythonPath Debug base os p) as E.
      apply Nat.ltb_lt in HfitD. rewrite HfitD in E. exact E. }
    split; [exact (sprintf_bootScript m base os p Hfit)|].
    split.
    { rewrite (sprintf_pythonEnv m base os p Hfit).
      now rewrite search_path_eq. }
    split.
    { rewrite <- child_command_line_eq.
      exact (sprintf_cmdLine m base os p Hfit). }
    now rewrite <- Hlen.
  - rewrite <- Hlen. intros Hfit buffer p' E.
    rewrite (run_resolved m args os p image self_located image_nonempty
               directory_pinned Hfit) in E.
    cbv zeta in E. unfold after_spawn in E.
    repeat match type of E with
           | context [match ?x with _ => _ end] => destruct x
           end; discriminate.
  - rewrite <- Hlen. intros Hlong.
    rewrite (run_overrun m args os p image self_located image_nonempty
               () directory_pinned Hlong).
    split; [reflexivity|]. split; [reflexivity|].
    split; observe; reflexivity.
Qed.
End Buffers.

(** ** The scenarios of the specification, run *)

Lemma app_fits m :
  forall image,
    os_GetModuleFileName app_os = Succeeds image ->
    (String.length (interpreter_path m (base_directory (image_buffer image)))
     < MAX_PATH)%nat.
Proof. intros image [= <-]. destruct m; vm_compute; lia. Defined.

Lemma exit_code_by_stage_witness :
  (forall image,
     os_GetModuleFileName app_os = Succeeds image ->
     (String.length
        (interpreter_path Release (base_directory (image_buffer image)))
      < MAX_PATH)%nat)
  /\ exit_code (launcher Release no_args app_os app_proc) = Some 0
  /\ exit_code_contract Release no_args app_os app_proc.
Proof.
  split; [exact (app_fits Release)|].
  split; [reflexivity|].
  exact (proj1 (proj2 (proj2 (exit_code_by_stage Release no_args app_os
                                app_proc (app_fits Release))))
               (or_introl eq_refl)).
Defined.

Lemma search_path_overwritten_witness :
  p_env app_proc !! "PYTHONPATH" = Some "V"
  /\ p_env (final (launcher Release no_args app_os app_proc)) !! "PYTHONPATH"
     = Some "C:\app\site_packages;C:\app\".
Proof.
  split; [reflexivity|].
  exact (proj1 (proj2
    (search_path_overwritten Release no_args app_os app_proc "C:\app\run.exe"
       eq_refl ltac:(discriminate) eq_refl ltac:(vm_compute; lia)
       ltac:(vm_compute; discriminate) eq_refl))).
Defined.

Lemma command_line_composed_witness :
  exists c,
    created app_proc (launcher Release no_args app_os app_proc) = [c]
    /\ ch_cmdline c
       = q +:+ "C:\app\base_env\pythonw.exe" +:+ q +:+ " " +:+ q
           +:+ "C:\app\boot.py" +:+ q
    /\ matches command_line_pattern (ch_cmdline c).
Proof.
  destruct (command_line_composed Release no_args app_os app_proc
              "C:\app\run.exe" eq_refl ltac:(discriminate) eq_refl
              ltac:(vm_compute; lia) ltac:(vm_compute; discriminate)
              100 104 eq_refl) as (c & Hc & _ & Hline & Hshape).
  exists c. split; [exact Hc|]. split; [exact Hline|].
  exact (proj1 (Hshape eq_refl eq_refl eq_refl)).
Defined.

Lemma missing_interpreter_reported_witness :
  exit_code (launcher Release no_args missing_os app_proc) = Some 1
  /\ shown app_proc (launcher Release no_args missing_os app_proc)
     = [Dialog ("Python environment not found at:" +:+ nl
                +:+ "C:\app\base_env\pythonw.exe" +:+ nl +:+ nl
                +:+ "Please ensure base_env is configured correctly.")
               "Error" 16]
  /\ created app_proc (launcher Release no_args missing_os app_proc) = [].
Proof.
  destruct (missing_interpreter_reported Release no_args missing_os app_proc
              "C:\app\run.exe" eq_refl ltac:(discriminate) eq_refl
              ltac:(vm_compute; lia) eq_refl)
    as (Hexit & Hshown & _ & Hcreated & _).
  split; [exact Hexit|]. split; [exact Hshown | exact Hcreated].
Defined.

Lemma spawn_failure_reported_witness :
  exit_code (launcher Release no_args denied_os app_proc) = Some 1
  /\ shown app_proc (launcher Release no_args denied_os app_proc)
     = [Dialog ("Failed to launch process." +:+ nl +:+ "Error code: 5")
               "Error" 16].
Proof.
  destruct (proj1 (spawn_failure_reported Release no_args denied_os app_proc
              "C:\app\run.exe" eq_refl ltac:(discriminate) eq_refl
              ltac:(vm_compute; lia) ltac:(vm_compute; discriminate)
              5 eq_refl))
    as (Hexit & Hshown & _).
  split; [exact Hexit | exact Hshown].
Defined.

Lemma after_successful_spawn_witness :
  exit_code (launcher Debug no_args app_os app_proc) = Some 0
  /\ p_waited (final (launcher Debug no_args app_os app_proc)) = [100]
  /\ (104 ∉ p_handles (final (launcher Debug no_args app_os app_proc))).
Proof.
  exact (after_successful_spawn Debug no_args app_os app_proc
           "C:\app\run.exe" eq_refl ltac:(discriminate) eq_refl
           ltac:(vm_compute; lia) ltac:(vm_compute; discriminate)
           100 104 eq_refl).
Defined.

Lemma base_directory_separated_witness :
  fully_qualified "C:\app\run.exe" = true
  /\ base_directory (image_buffer "C:\app\run.exe") = "C:\app\"
  /\ ends_with_slash (base_directory (image_buffer "C:\app\run.exe")) = true.
Proof.
  split; [reflexivity|]. split; [reflexivity|].
  exact (proj1 (base_directory_separated Release "C:\app\run.exe" eq_refl)).
Defined.

Lemma environment_failure_ignored_witness :
  exists c,
    created bare_proc (launcher Release no_args no_putenv_os bare_proc) = [c]
    /\ shown bare_proc (launcher Release no_args no_putenv_os bare_proc) = []
    /\ ch_env c !! "PYTHONPATH" = None.
Proof.
  pose proof (environment_failure_ignored Release no_args no_putenv_os
                bare_proc "C:\app\run.exe" eq_refl ltac:(discriminate)
                eq_refl ltac:(vm_compute; lia)
                ltac:(vm_compute; discriminate)) as [Hrun Henv].
  eexists. split; [exact (proj1 Hrun)|]. split; [exact (proj2 Hrun)|].
  exact (proj2 (proj2 (Henv eq_refl)) eq_refl).
Defined.

Lemma path_buffers_witness :
  String.length (base_directory (image_buffer deep_image)) = 250%nat
  /\ launcher Release no_args deep_os app_proc
     = Stuck (Overrun "pythonPath") (pinned deep_image app_proc)
  /\ (forall buffer p',
        launcher Release no_args app_os app_proc <> Stuck (Overrun buffer) p').
Proof.
  split; [reflexivity|]. split.
  - exact (proj1 (proj2 (proj2 (path_buffers Release no_args deep_os app_proc
                                  deep_image eq_refl ltac:(discriminate)
                                  eq_refl))
                        ltac:(vm_compute; lia))).
  - exact (proj1 (proj2 (path_buffers Release no_args app_os app_proc
                           "C:\app\run.exe" eq_refl ltac:(discriminate)
                           eq_refl))
                 ltac:(vm_compute; lia)).
Defined.

(** The launcher under [C:\Program Files\app]: the quotes keep each path one
    argument. *)
Example spaced_run :
  map ch_cmdline
      (created app_proc (launcher Release no_args spaced_os app_proc))
  = [q +:+ "C:\Program Files\app\base_env\pythonw.exe" +:+ q +:+ " " +:+ q
       +:+ "C:\Program Files\app\boot.py" +:+ q].
Proof. reflexivity. Qed.

(** A debug build whose child is a server: the child runs, the launcher
    waits. *)
Example server_run :
  exit_code (launcher Debug no_args server_os app_proc) = None
  /\ length (created app_proc (launcher Debug no_args server_os app_proc))
     = 1%nat.
Proof. split; reflexivity. Qed.

(** The launcher started with arguments runs as it does without. *)
Example arguments_run :
  WinMain 4194304 0 "--port 8080 x" 10 app_os app_proc
  = WinMain 4194304 0 EmptyString 10 app_os app_proc.
Proof. reflexivity. Qed.

(** * Further properties of the launcher *)

(** Case analysis on the stage at which a run ends. *)
Ltac by_stage m args os p :=
  destruct (launcher_run m args os p)
    as [code Himage|Himage|image code Himage Hne Hpin|image Himage Hne Hpin Hlong
        |image base Himage Hne Hpin Hfit Hattrs
        |image code base p3 Himage Hne Hpin Hfit Hattrs Hcp
        |image hProcess hThread base p3 Himage Hne Hpin Hfit Hattrs Hcp].

Lemma shown_reported {A} m text (a : A) p q1 :
  p_out q1 = p_out p ->
  shown p (Done a (reported m text q1)) = report m text.
Proof.
  intros H. unfold shown. cbn [final]. rewrite p_out_reported, H.
  apply drop_own_app.
Qed.

Lemma report_nonempty m text : report m text <> [].
Proof. now destruct m. Qed.

(** X1. A run shows something exactly when it exits with code 1, and then it
    shows one report: in a release build one dialog with the caption [Error],
    an OK button and the error icon; in a debug build one line on standard
    output followed by [pause].  A run that exits with code 0, that waits, or
    that writes past a buffer has shown nothing.  No other exit code
    exists. *)
Theorem one_report_per_failure m args os p :
  let r := launcher m args os p in
  (exit_code r = Some 0 \/ exit_code r = Some 1 \/ exit_code r = None)
  /\ (exit_code r = Some 1 <->
      exists text,
        shown p r
        = match m with
          | Release => [Dialog text "Error" (Z.lor MB_OK MB_ICONERROR)]
          | Debug => [Stdout (text +:+ nl); System "pause"]
          end)
  /\ (exit_code r <> Some 1 <-> shown p r = []).
Proof.
  intros r.
  assert ((exit_code r = Some 1 /\ exists text, shown p r = report m text)
          \/ (exit_code r <> Some 1 /\ shown p r = []
              /\ (exit_code r = Some 0 \/ exit_code r = None))) as Hcases.
  { subst r. by_stage m args os p.
    - left. split; [reflexivity|]. eexists. now apply shown_reported.
    - left. split; [reflexivity|]. eexists. now apply shown_reported.
    - left. split; [reflexivity|]. eexists.
      apply shown_reported. observe; reflexivity.
    - right. split; [discriminate|]. split; [observe; reflexivity | now right].
    - left. split; [reflexivity|]. eexists.
      apply shown_reported. observe; reflexivity.
    - left. split; [reflexivity|]. eexists.
      apply shown_reported. subst p3. apply out_env_prepared.
    - right. rewrite exit_after_spawn.
      split; [destruct m; [|destruct (os_child _ _)]; discriminate|].
      split; [subst p3; apply shown_after_spawn, out_env_prepared|].
      destruct m; [|destruct (os_child _ _)]; auto. }
  destruct Hcases as [[He [text Hs]]|(He & Hs & H0)].
  - split; [auto|]. split.
    + split; [intros _; exists text; rewrite Hs; now destruct m | auto].
    + split; [congruence|]. rewrite Hs. intros E.
      now destruct (report_nonempty m text).
  - split; [tauto|]. split.
    + split; [congruence|]. intros [text E]. rewrite Hs in E.
      destruct m; discriminate.
    + tauto.
Qed.

(** X2. A child is created only at the end of the whole chain: the image path
    was found, the working directory was set to the base directory, the
    interpreter path fitted its buffer and its attributes were valid.  A run
    creates at most one child, and the child is the one the system was asked
    for. *)
Theorem child_only_after_checks m args os p :
  let r := launcher m args os p in
  (length (created p r) <= 1)%nat
  /\ (forall c, c ∈ created p r ->
        exists image hProcess hThread,
          let base := base_directory (image_buffer image) in
          os_GetModuleFileName os = Succeeds image
          /\ image <> EmptyString
          /\ os_SetCurrentDirectory os base = Succeeds tt
          /\ (String.length (interpreter_path m base) < MAX_PATH)%nat
          /\ attributes os (interpreter_path m base)
             <> INVALID_FILE_ATTRIBUTES
          /\ os_CreateProcess os c = Succeeds (hProcess, hThread)
          /\ created p r = [c]).
Proof.
  intros r.
  assert (created p r = []
          \/ exists image hProcess hThread c,
               let base := base_directory (image_buffer image) in
               os_GetModuleFileName os = Succeeds image
               /\ image <> EmptyString
               /\ os_SetCurrentDirectory os base = Succeeds tt
               /\ (String.length (interpreter_path m base) < MAX_PATH)%nat
               /\ attributes os (interpreter_path m base)
                  <> INVALID_FILE_ATTRIBUTES
               /\ os_CreateProcess os c = Succeeds (hProcess, hThread)
               /\ created p r = [c]) as Hcases.
  { subst r. by_stage m args os p.
    - left. now apply created_reported.
    - left. now apply created_reported.
    - left. apply created_reported. observe; reflexivity.
    - left. observe; reflexivity.
    - left. apply created_reported. observe; reflexivity.
    - left. apply created_reported. subst p3. apply children_env_prepared.
    - right. exists image, hProcess, hThread, (child_of m base p3).
      cbv zeta. repeat (split; [assumption|]).
      subst p3. apply created_after_spawn, children_env_prepared. }
  destruct Hcases as [E|(image & hP & hT & c & H)].
  - rewrite E. split; [cbn; lia|]. intros c Hc. now apply elem_of_nil in Hc.
  - cbv zeta in H. destruct H as (H1 & H2 & H3 & H4 & H5 & H6 & E).
    rewrite E. split; [cbn; lia|].
    intros c' Hc'. apply list_elem_of_singleton in Hc'. subst c'.
    exists image, hP, hT. cbv zeta. auto 10.
Qed.

(** X3. Every child the launcher creates is started from the command line
    alone, with no application name; it inherits no handles; its creation
    flags are 0 in a debug build and [CREATE_NO_WINDOW] otherwise; and it
    starts in the launcher's working directory, with the launcher's
    environment, as they are when the launcher ends. *)
Theorem child_inherits_launcher_state m args os p :
  let r := launcher m args os p in
  forall c, c ∈ created p r ->
    ch_app c = None
    /\ ch_inherit c = FALSE
    /\ ch_flags c = match m with Release => CREATE_NO_WINDOW | Debug => 0 end
    /\ ch_env c = p_env (final r)
    /\ ch_cwd c = p_cwd (final r).
Proof.
  intros r c Hc. subst r. revert Hc. by_stage m args os p; intros Hc.
  - rewrite created_reported in Hc by reflexivity.
    now apply elem_of_nil in Hc.
  - rewrite created_reported in Hc by reflexivity.
    now apply elem_of_nil in Hc.
  - rewrite created_reported in Hc by (observe; reflexivity).
    now apply elem_of_nil in Hc.
  - unfold created in Hc. cbn [final] in Hc.
    assert (p_children (pinned image p) = p_children p) as E
      by (observe; reflexivity).
    rewrite E, drop_own in Hc. now apply elem_of_nil in Hc.
  - rewrite created_reported in Hc by (observe; reflexivity).
    now apply elem_of_nil in Hc.
  - rewrite created_reported in Hc by (subst p3; apply children_env_prepared).
    now apply elem_of_nil in Hc.
  - rewrite created_after_spawn in Hc
      by (subst p3; apply children_env_prepared).
    apply list_elem_of_singleton in Hc. subst c.
    rewrite env_after_spawn, cwd_after_spawn.
    repeat split; reflexivity.
Qed.

(** ** The environment and the handles *)

Lemma env_reported m text p : p_env (reported m text p) = p_env p.
Proof. now destruct m. Qed.

Lemma env_pinned image p : p_env (pinned image p) = p_env p.
Proof. observe; reflexivity. Qed.

Lemma env_env_prepared os base p :
  p_env (env_prepared os base p) = p_env p
  \/ p_env (env_prepared os base p)
     = <["PYTHONPATH" := base +:+ "site_packages;" +:+ base]> (p_env p).
Proof.
  unfold env_prepared. rewrite <- search_path_eq.
  destruct (os_putenv os _); [right | left]; reflexivity.
Qed.

(** X4. No run touches a variable of the environment other than
    [PYTHONPATH]: at the end the environment is the inherited one, or the
    inherited one with [PYTHONPATH] set to the packages directory, a
    semicolon and the base directory. *)
Theorem only_search_path_assigned m args os p :
  let r := launcher m args os p in
  (p_env (final r) = p_env p
   \/ exists image,
        let base := base_directory (image_buffer image) in
        os_GetModuleFileName os = Succeeds image
        /\ p_env (final r)
           = <["PYTHONPATH" := base +:+ "site_packages;" +:+ base]> (p_env p))
  /\ (forall name, name <> "PYTHONPATH" ->
        p_env (final r) !! name = p_env p !! name).
Proof.
  intros r.
  assert (p_env (final r) = p_env p
          \/ exists image,
               let base := base_directory (image_buffer image) in
               os_GetModuleFileName os = Succeeds image
               /\ p_env (final r)
                  = <["PYTHONPATH" := base +:+ "site_packages;" +:+ base]>
                      (p_env p)) as Hcases.
  { subst r. by_stage m args os p; cbn [final].
    - left. now rewrite env_reported.
    - left. now rewrite env_reported.
    - left. rewrite env_reported. observe; reflexivity.
    - left. apply env_pinned.
    - left. rewrite env_reported. observe; reflexivity.
    - rewrite env_reported. cbn [set_last_error p_env]. subst p3.
      destruct (env_env_prepared os base (pinned image p)) as [E|E];
        rewrite E, env_pinned; [now left | right; now exists image].
    - rewrite env_after_spawn. subst p3.
      destruct (env_env_prepared os base (pinned image p)) as [E|E];
        rewrite E, env_pinned; [now left | right; now exists image]. }
  split; [exact Hcases|].
  intros name Hname. destruct Hcases as [->|(image & _ & ->)];
    [reflexivity | now apply lookup_insert_ne].
Qed.

Lemma handles_reported m text p : p_handles (reported m text p) = p_handles p.
Proof. now destruct m. Qed.

Lemma closed_both (H : gset Z) (hP hT : Z) :
  (hT ∉ (({[hP; hT]} ∪ H) ∖ {[hP]}) ∖ {[hT]})
  /\ (hP ∉ (({[hP; hT]} ∪ H) ∖ {[hP]}) ∖ {[hT]})
  /\ (forall h, h ∈ (({[hP; hT]} ∪ H) ∖ {[hP]}) ∖ {[hT]} -> h ∈ H).
Proof.
  split; [|split].
  - intros [_ Hn]%elem_of_difference. apply Hn. now apply elem_of_singleton.
  - intros [[_ Hn]%elem_of_difference _]%elem_of_difference.
    apply Hn. now apply elem_of_singleton.
  - intros h [[Hin HnP]%elem_of_difference HnT]%elem_of_difference.
    apply elem_of_union in Hin as [Hin|Hin]; [|exact Hin].
    apply elem_of_union in Hin as [Hin|Hin]; contradiction.
Qed.

Lemma closed_thread (H : gset Z) (hP hT : Z) :
  (hT ∉ ({[hP; hT]} ∪ H) ∖ {[hT]})
  /\ (hP <> hT -> hP ∈ ({[hP; hT]} ∪ H) ∖ {[hT]})
  /\ (forall h, h ∈ ({[hP; hT]} ∪ H) ∖ {[hT]} -> h ∈ H \/ h = hP).
Proof.
  split; [|split].
  - intros [_ Hn]%elem_of_difference. apply Hn. now apply elem_of_singleton.
  - intros Hne. apply elem_of_difference. split.
    + apply elem_of_union. left. apply elem_of_union. left.
      now apply elem_of_singleton.
    + intros Hin%elem_of_singleton. contradiction.
  - intros h [Hin HnT]%elem_of_difference.
    apply elem_of_union in Hin as [Hin|Hin]; [|now left].
    apply elem_of_union in Hin as [Hin|Hin]; [|contradiction].
    right. now apply elem_of_singleton in Hin.
Qed.

(** X5. The launcher leaves no handle of its child behind, but for one.  A
    run that exits with code 1 has the handles it started with.  A release
    run that exits with code 0 has closed both handles of the child.  A debug
    run that exits with code 0 has closed the thread handle and still holds
    the process handle it waited on. *)
Theorem handles_at_exit m args os p :
  let r := launcher m args os p in
  (exit_code r = Some 1 -> p_handles (final r) = p_handles p)
  /\ (exit_code r = Some 0 ->
      exists c hProcess hThread,
        created p r = [c]
        /\ os_CreateProcess os c = Succeeds (hProcess, hThread)
        /\ (hThread ∉ p_handles (final r))
        /\ (forall h, h ∈ p_handles (final r) ->
              h ∈ p_handles p \/ (m = Debug /\ h = hProcess))
        /\ match m with
           | Release => hProcess ∉ p_handles (final r)
           | Debug => hProcess <> hThread -> hProcess ∈ p_handles (final r)
           end).
Proof.
  intros r. subst r. by_stage m args os p; cbn [final exit_code].
  - split; [intros _|discriminate]. now rewrite handles_reported.
  - split; [intros _|discriminate]. now rewrite handles_reported.
  - split; [intros _|discriminate]. rewrite handles_reported.
    observe; reflexivity.
  - split; discriminate.
  - split; [intros _|discriminate]. rewrite handles_reported.
    observe; reflexivity.
  - split; [intros _|discriminate]. rewrite handles_reported. subst p3.
    observe; reflexivity.
  - rewrite exit_after_spawn.
    assert (p_handles p3 = p_handles p) as Hh
      by (subst p3; observe; reflexivity).
    split; [destruct m; [|destruct (os_child _ _)]; discriminate|].
    intros Hexit. exists (child_of m base p3), hProcess, hThread.
    split; [subst p3; apply created_after_spawn, children_env_prepared|].
    split; [exact Hcp|].
    unfold after_spawn in *. destruct m.
    + unfold closed, spawned. fields. rewrite Hh.
      destruct (closed_both (p_handles p) hProcess hThread) as (H1 & H2 & H3).
      split; [exact H1|]. split; [|exact H2].
      intros h Hin. left. now apply H3.
    + destruct (os_child os hProcess); [|discriminate].
      unfold closed, spawned. fields. rewrite Hh.
      destruct (closed_thread (p_handles p) hProcess hThread) as (H1 & H2 & H3).
      split; [exact H1|]. split; [|exact H2].
      intros h Hin. destruct (H3 h Hin); [now left | now right].
Qed.

(** ** Waiting and writing past a buffer *)

(** X6. A release build never looks at its child again: its run is the same
    whatever the child does afterwards, it waits on nothing, and it never
    stays blocked. *)
Theorem release_ignores_child f args os p :
  let r := launcher Release args os p in
  launcher Release args (with_child f os) p = r
  /\ p_waited (final r) = p_waited p
  /\ (forall p', r <> Stuck Blocked p').
Proof.
  intros r. subst r. by_stage Release args os p.
  - rewrite (run_self_location_failed Release args (with_child f os) p code
               Himage).
    repeat split; discriminate.
  - rewrite (run_empty_image Release args (with_child f os) p Himage).
    repeat split; discriminate.
  - rewrite (run_pin_failed Release args (with_child f os) p image Himage Hne
               code Hpin).
    repeat split; [observe; reflexivity | discriminate].
  - rewrite (run_overrun Release args (with_child f os) p image Himage Hne ()
               Hpin Hlong).
    repeat split; [observe; reflexivity | discriminate].
  - rewrite (run_missing Release args (with_child f os) p image Himage Hne
               Hpin Hfit Hattrs).
    repeat split; [observe; reflexivity | discriminate].
  - rewrite (run_spawn_failed Release args (with_child f os) p image Himage
               Hne Hpin Hfit Hattrs code Hcp).
    repeat split; [subst p3; observe; reflexivity | discriminate].
  - rewrite (run_spawned Release args (with_child f os) p image Himage Hne
               Hpin Hfit Hattrs hProcess hThread Hcp).
    repeat split; [subst p3; observe; reflexivity | discriminate].
Qed.

(** X7. A run stays blocked only in a debug build, in the wait on the process
    handle of the one child it has created, when that child never exits.
    Nothing has been shown, and both handles of the child are still open. *)
Theorem blocked_only_on_child m args os p p' :
  launcher m args os p = Stuck Blocked p' ->
  m = Debug
  /\ exists c hProcess hThread,
       created p (launcher m args os p) = [c]
       /\ os_CreateProcess os c = Succeeds (hProcess, hThread)
       /\ os_child os hProcess = None
       /\ shown p (launcher m args os p) = []
       /\ hProcess ∈ p_handles p'
       /\ hThread ∈ p_handles p'.
Proof.
  by_stage m args os p; try discriminate.
  unfold after_spawn. destruct m; [discriminate|].
  destruct (os_child os hProcess) eqn:Hchild; [discriminate|].
  intros [= <-]. split; [reflexivity|].
  exists (child_of Debug base p3), hProcess, hThread.
  split.
  { unfold created. cbn [final spawned set_handles add_child p_children].
    subst p3. rewrite children_env_prepared. apply drop_own_app. }
  split; [exact Hcp|]. split; [exact Hchild|].
  split.
  { unfold shown. cbn [final spawned set_handles add_child p_out].
    subst p3. rewrite out_env_prepared. apply drop_own. }
  unfold spawned. fields.
  split; apply elem_of_union; left; apply elem_of_union;
    [left | right]; now apply elem_of_singleton.
Qed.

(** X8. The only buffer a run can write past is [pythonPath]: once the
    interpreter path fits, the script path, the assignment, the command line
    and both messages fit as well.  The overrun happens when the working
    directory is already set to the base directory, before the existence
    check: nothing has been shown, no child created, the environment is
    untouched. *)
Theorem overrun_only_in_pythonPath m args os p buffer p' :
  launcher m args os p = Stuck (Overrun buffer) p' ->
  buffer = "pythonPath"
  /\ exists image,
       let base := base_directory (image_buffer image) in
       os_GetModuleFileName os = Succeeds image
       /\ (MAX_PATH <= String.length base
                       + String.length ("base_env\" +:+ interpreter m))%nat
       /\ p_cwd p' = base
       /\ p_env p' = p_env p
       /\ p_children p' = p_children p
       /\ p_out p' = p_out p.
Proof.
  by_stage m args os p; try discriminate.
  - intros [= <- <-]. split; [reflexivity|]. exists image. cbv zeta.
    split; [exact Himage|].
    split; [unfold interpreter_path in Hlong; now rewrite length_app in Hlong|].
    split; [reflexivity|]. repeat split; observe; reflexivity.
  - unfold after_spawn. destruct m; [|destruct (os_child _ _)]; discriminate.
Qed.

(** ** The first two failures *)

(** X9. When the image path is not found, that is when [GetModuleFileName]
    returns 0, by failure or with an empty path, the launcher exits with code
    1 after the one report [Failed to get executable path.]; the working
    directory and the environment are as they were, and no child exists. *)
Theorem self_location_failure_reported m args os p :
  (exists code, os_GetModuleFileName os = Fails code)
  \/ os_GetModuleFileName os = Succeeds EmptyString ->
  let r := launcher m args os p in
  exit_code r = Some 1
  /\ shown p r = report m "Failed to get executable path."
  /\ length (messages (shown p r)) = 1%nat
  /\ created p r = []
  /\ p_cwd (final r) = p_cwd p
  /\ p_env (final r) = p_env p
  /\ p_handles (final r) = p_handles p.
Proof.
  intros H r.
  assert (exists q1, r = Done 1 (reported m "Failed to get executable path." q1)
                     /\ p_out q1 = p_out p /\ p_children q1 = p_children p
                     /\ p_cwd q1 = p_cwd p /\ p_env q1 = p_env p
                     /\ p_handles q1 = p_handles p)
    as (q1 & -> & Hout & Hchildren & Hcwd & Henv & Hh).
  { subst r. destruct H as [[code H]|H].
    - rewrite (run_self_location_failed m args os p code H).
      eexists. split; [reflexivity|]. repeat split.
    - rewrite (run_empty_image m args os p H).
      eexists. split; [reflexivity|]. repeat split. }
  rewrite (shown_reported m _ 1 p q1 Hout).
  split; [reflexivity|]. split; [reflexivity|].
  split; [apply messages_report|].
  split; [now apply created_reported|]. cbn [final].
  rewrite cwd_reported, env_reported, handles_reported. auto.
Qed.

(** X10. When the working directory cannot be set to the base directory, the
    launcher exits with code 1 after the one report [Failed to set current
    directory.]; the working directory is the one the launcher was started
    in, the environment is as it was, no child exists, and no file was
    asked for. *)
Theorem pin_failure_reported m args os p image code :
  os_GetModuleFileName os = Succeeds image ->
  image <> EmptyString ->
  os_SetCurrentDirectory os (base_directory (image_buffer image))
    = Fails code ->
  let r := launcher m args os p in
  exit_code r = Some 1
  /\ shown p r = report m "Failed to set current directory."
  /\ length (messages (shown p r)) = 1%nat
  /\ created p r = []
  /\ p_cwd (final r) = p_cwd p
  /\ p_env (final r) = p_env p
  /\ p_last_error (final r) = code
  /\ (forall f, launcher m args (with_attributes f os) p = r).
Proof.
  intros Himage Hne Hpin r. subst r.
  rewrite (run_pin_failed m args os p image Himage Hne code Hpin).
  rewrite (shown_reported m _ 1 p) by (observe; reflexivity).
  split; [reflexivity|]. split; [reflexivity|].
  split; [apply messages_report|].
  split; [apply created_reported; observe; reflexivity|]. cbn [final].
  rewrite cwd_reported, env_reported.
  split; [observe; reflexivity|]. split; [observe; reflexivity|].
  split; [now destruct m|].
  intros f.
  exact (run_pin_failed m args (with_attributes f os) p image Himage Hne code
           Hpin).
Qed.

(** ** What the launcher asks the file system *)

(** X11. The one file the launcher asks about is the interpreter.  Two
    systems that give the same attributes for the interpreter path give the
    same run, whatever they say about every other path: neither [boot.py] nor
    [site_packages] is checked before the child is started. *)
Theorem only_interpreter_checked m args os p f :
  (forall image,
     os_GetModuleFileName os = Succeeds image ->
     f (interpreter_path m (base_directory (image_buffer image)))
     = os_GetFileAttributes os
         (interpreter_path m (base_directory (image_buffer image)))) ->
  launcher m args (with_attributes f os) p = launcher m args os p.
Proof.
  intros Hf. by_stage m args os p.
  - exact (run_self_location_failed m args (with_attributes f os) p code
             Himage).
  - exact (run_empty_image m args (with_attributes f os) p Himage).
  - exact (run_pin_failed m args (with_attributes f os) p image Himage Hne
             code Hpin).
  - exact (run_overrun m args (with_attributes f os) p image Himage Hne ()
             Hpin Hlong).
  - specialize (Hf image Himage).
    assert (attributes (with_attributes f os) (interpreter_path m base)
            = INVALID_FILE_ATTRIBUTES) as Hattrs'.
    { unfold attributes in *. cbn [with_attributes os_GetFileAttributes].
      subst base. now rewrite Hf. }
    rewrite (run_missing m args (with_attributes f os) p image Himage Hne
               Hpin Hfit Hattrs').
    unfold probed. cbn [with_attributes os_GetFileAttributes].
    subst base. now rewrite Hf.
  - specialize (Hf image Himage).
    assert (attributes (with_attributes f os) (interpreter_path m base)
            <> INVALID_FILE_ATTRIBUTES) as Hattrs'.
    { unfold attributes in *. cbn [with_attributes os_GetFileAttributes].
      subst base. now rewrite Hf. }
    exact (run_spawn_failed m args (with_attributes f os) p image Himage Hne
             Hpin Hfit Hattrs' code Hcp).
  - specialize (Hf image Himage).
    assert (attributes (with_attributes f os) (interpreter_path m base)
            <> INVALID_FILE_ATTRIBUTES) as Hattrs'.
    { unfold attributes in *. cbn [with_attributes os_GetFileAttributes].
      subst base. now rewrite Hf. }
    exact (run_spawned m args (with_attributes f os) p image Himage Hne
             Hpin Hfit Hattrs' hProcess hThread Hcp).
Qed.

(** ** The image path *)

Lemma slash_free_cons c s :
  slash_free (String c s) = negb (is_slash c) && slash_free s.
Proof.
  unfold slash_free, is_slash. cbn [has_char].
  rewrite (Ascii.eqb_sym c "/"), (Ascii.eqb_sym c "\").
  destruct (Ascii.eqb "/" c), (Ascii.eqb "\" c), (has_char "/" s),
    (has_char "\" s); reflexivity.
Qed.

(** A path is its directory, up to the last slash, and a rest without
    slash. *)
Lemma last_slash_split s :
  exists rest,
    s = substring 0 (last_slash s) s +:+ rest
    /\ slash_free rest = true
    /\ (substring 0 (last_slash s) s = EmptyString
        \/ ends_with_slash (substring 0 (last_slash s) s) = true).
Proof.
  induction s as [|c s (rest & Hs & Hfree & Hends)].
  - exists EmptyString. repeat split. now left.
  - cbn [last_slash]. destruct (last_slash s) as [|n] eqn:Hn.
    + assert (s = rest) as Hrest by (rewrite Hs at 1; now destruct s).
      destruct (is_slash c) eqn:Hc.
      * exists s. rewrite substring_0_S.
        assert (substring 0 0 s = EmptyString) as -> by now destruct s.
        split; [reflexivity|]. split; [now rewrite Hrest|].
        right. unfold ends_with_slash. cbn. exact Hc.
      * exists (String c s).
        assert (substring 0 0 (String c s) = EmptyString) as -> by reflexivity.
        split; [reflexivity|]. split; [|now left].
        rewrite slash_free_cons, Hc, Hrest. exact Hfree.
    + exists rest. rewrite substring_0_S, app_cons, <- Hs.
      split; [reflexivity|]. split; [exact Hfree|]. right.
      destruct Hends as [E|E].
      * destruct s; [discriminate Hn | discriminate E].
      * destruct (substring 0 (S n) s) as [|d t] eqn:Ed; [discriminate|].
        exact E.
Qed.

(** X12. The base directory is the image path without its file name: an
    image path shorter than [_MAX_DIR] is the base directory followed by a
    name that holds no slash. *)
Theorem image_in_base_directory image :
  (String.length image < _MAX_DIR)%nat ->
  exists name,
    image = base_directory (image_buffer image) +:+ name
    /\ slash_free name = true.
Proof.
  unfold _MAX_DIR. intros Hlen.
  assert (image_buffer image = image) as ->.
  { unfold image_buffer.
    assert ((String.length image <? MAX_PATH)%nat = true) as ->;
      [apply Nat.ltb_lt; unfold MAX_PATH; lia | reflexivity]. }
  rewrite base_directory_parts, splitpath_drive.
  destruct (last_slash_split (after_drive image)) as (name & Hs & Hfree & He).
  exists name. split; [|exact Hfree].
  assert (String.length (after_drive image) <= String.length image)%nat as Hle.
  { unfold after_drive. destruct image as [|c0 [|c1 rest]]; try lia.
    destruct (Ascii.eqb c1 ":"); cbn [String.length]; lia. }
  pose proof (last_slash_le (after_drive image)) as Hls.
  rewrite Nat.min_l by lia.
  assert (dir_part (substring 0 (last_slash (after_drive image))
                      (after_drive image))
          = substring 0 (last_slash (after_drive image)) (after_drive image))
    as ->.
  { unfold dir_part. destruct He as [->| ->]; [reflexivity|].
    now destruct (substring _ _ _). }
  rewrite app_assoc_str, <- Hs.
  unfold after_drive. destruct image as [|c0 [|c1 rest]]; try reflexivity.
  destruct (Ascii.eqb c1 ":") eqn:Hc1; [|reflexivity].
  apply Ascii.eqb_eq in Hc1. now subst c1.
Qed.

Lemma length_substring_0 s : forall n,
  (n <= String.length s)%nat -> String.length (substring 0 n s) = n.
Proof.
  induction s as [|c s IH]; intros n Hn.
  - cbn in Hn. now replace n with O by lia.
  - destruct n as [|n]; [reflexivity|].
    rewrite substring_0_S. cbn [String.length] in *. rewrite IH; lia.
Qed.

Lemma forget_reported m text p q1 :
  forget_last_error p = forget_last_error q1 ->
  forget_last_error (reported m text p) = forget_last_error (reported m text q1).
Proof.
  unfold forget_last_error. destruct p, q1. intros [= -> -> -> -> -> ->].
  now destruct m.
Qed.

Lemma located_long path p :
  (MAX_PATH <= String.length path)%nat ->
  located path p = set_last_error ERROR_INSUFFICIENT_BUFFER p.
Proof.
  intros H. unfold located. apply Nat.ltb_ge in H. now rewrite H.
Qed.

Lemma located_short path p :
  (String.length path < MAX_PATH)%nat -> located path p = p.
Proof.
  intros H. unfold located. apply Nat.ltb_lt in H. now rewrite H.
Qed.

Lemma env_prepared_error os base e p :
  env_prepared os base (set_last_error e p)
  = set_last_error e (env_prepared os base p).
Proof. unfold env_prepared. now destruct (os_putenv os _). Qed.

(** X13. An image path of [MAX_PATH] characters or more is cut to
    [MAX_PATH - 1] characters and the cut goes unnoticed: the call does not
    return 0, so the run is, but for the last error, the run of a launcher
    whose image path is the cut one. *)
Theorem long_image_path_cut m args os p path :
  os_GetModuleFileName os = Succeeds path ->
  (MAX_PATH <= String.length path)%nat ->
  let cut := substring 0 (MAX_PATH - 1) path in
  let r := launcher m args os p in
  let r' := launcher m args (with_image cut os) p in
  String.length cut = (MAX_PATH - 1)%nat
  /\ exit_code r = exit_code r'
  /\ forget_last_error (final r) = forget_last_error (final r').
Proof.
  intros Hpath Hover cut r r'.
  assert (String.length cut = (MAX_PATH - 1)%nat) as Hcut
    by (apply length_substring_0; unfold MAX_PATH in *; lia).
  split; [exact Hcut|].
  assert (image_buffer path = cut) as Eb.
  { unfold image_buffer. apply Nat.ltb_ge in Hover. now rewrite Hover. }
  assert (String.length cut < MAX_PATH)%nat as Hshort
    by (rewrite Hcut; unfold MAX_PATH; lia).
  assert (image_buffer cut = cut) as Eb'.
  { unfold image_buffer. apply Nat.ltb_lt in Hshort. now rewrite Hshort. }
  assert (cut <> EmptyString) as Hne'.
  { intros E. rewrite E in Hcut. discriminate. }
  assert (pinned path p
          = set_last_error ERROR_INSUFFICIENT_BUFFER (pinned cut p)) as Epin.
  { unfold pinned. rewrite Eb, Eb', located_long, located_short by assumption.
    reflexivity. }
  assert (image_buffer path = image_buffer cut) as E2 by congruence.
  clear Eb Eb'.
  subst r r'. by_stage m args os p;
    try congruence;
    try (assert (image = path) as -> by congruence);
    try subst p3; try subst base.
  - rewrite Himage in Hpath. injection Hpath as <-.
    cbn in Hover. unfold MAX_PATH in Hover. lia.
  - rewrite E2 in Hpin.
    rewrite (run_pin_failed m args (with_image cut os) p cut eq_refl Hne'
               code Hpin).
    rewrite located_long, located_short by assumption.
    split; [reflexivity|]. now destruct m.
  - rewrite E2 in Hpin, Hlong.
    rewrite (run_overrun m args (with_image cut os) p cut eq_refl Hne' ()
               Hpin Hlong).
    split; [reflexivity|]. cbn [final]. fold (pinned cut p).
    now rewrite Epin.
  - rewrite E2 in Hpin, Hfit, Hattrs.
    rewrite (run_missing m args (with_image cut os) p cut eq_refl Hne' Hpin
               Hfit Hattrs).
    rewrite Epin, E2. split; [reflexivity|]. cbn [final].
    unfold probed. cbn [with_image os_GetFileAttributes].
    destruct (os_GetFileAttributes os _); now destruct m.
  - rewrite Epin, env_prepared_error in Hcp.
    rewrite E2 in Hpin, Hfit, Hattrs, Hcp.
    rewrite (run_spawn_failed m args (with_image cut os) p cut eq_refl Hne'
               Hpin Hfit Hattrs code Hcp).
    rewrite Epin, env_prepared_error, E2.
    split; [reflexivity|]. now destruct m.
  - rewrite Epin, env_prepared_error in Hcp.
    rewrite E2 in Hpin, Hfit, Hattrs, Hcp.
    rewrite (run_spawned m args (with_image cut os) p cut eq_refl Hne'
               Hpin Hfit Hattrs hProcess hThread Hcp).
    rewrite Epin, env_prepared_error, E2.
    split.
    + rewrite !exit_after_spawn. reflexivity.
    + unfold after_spawn. cbn [with_image os_child].
      destruct m; [|destruct (os_child os hProcess)]; reflexivity.
Qed.

(** ** Launching again *)

Lemma children_after_spawn m os c hProcess hThread q3 :
  p_children (final (after_spawn m os hProcess hThread
                       (spawned c hProcess hThread q3)))
  = p_children q3 ++ [c].
Proof. destruct m; unfold after_spawn; repeat case_goal; reflexivity. Qed.

Lemma child_of_eq m base p p' :
  p_env p = p_env p' -> p_cwd p = p_cwd p' ->
  child_of m base p = child_of m base p'.
Proof. unfold child_of. now intros -> ->. Qed.

(** The assignment made twice is the assignment made once. *)
Lemma env_prepared_twice os base p p0 :
  p_env p = p_env (env_prepared os base p0) ->
  p_env (env_prepared os base p) = p_env (env_prepared os base p0).
Proof.
  unfold env_prepared. destruct (os_putenv os _); cbn [set_env p_env];
    intros ->; [apply insert_insert_eq | reflexivity].
Qed.

(** X14. Launching again repeats the launch.  After a run that has exited
    with code 0, a second run of the launcher in the same process, with any
    arguments, asks for the same child again, so it creates a second child
    that is equal to the first, exits with code 0 again, shows nothing, and
    leaves the working directory and the environment as the first run left
    them: pinning and the assignment of [PYTHONPATH] are idempotent. *)
Theorem relaunch_repeats m args args' os p image hProcess hThread :
  let base := base_directory (image_buffer image) in
  os_GetModuleFileName os = Succeeds image ->
  image <> EmptyString ->
  os_SetCurrentDirectory os base = Succeeds tt ->
  (String.length (interpreter_path m base) < MAX_PATH)%nat ->
  attributes os (interpreter_path m base) <> INVALID_FILE_ATTRIBUTES ->
  os_CreateProcess os (child_of m base (env_prepared os base (pinned image p)))
  = Succeeds (hProcess, hThread) ->
  let r1 := launcher m args os p in
  exit_code r1 = Some 0 ->
  let r2 := launcher m args' os (final r1) in
  exit_code r2 = Some 0
  /\ created (final r1) r2 = created p r1
  /\ p_children (final r2) = p_children p ++ created p r1 ++ created p r1
  /\ shown (final r1) r2 = []
  /\ p_cwd (final r2) = p_cwd (final r1)
  /\ p_env (final r2) = p_env (final r1).
Proof.
  intros base Himage Hne Hpin Hfit Hattrs Hcp r1 Hexit r2.
  set (p3 := env_prepared os base (pinned image p)) in *.
  set (c := child_of m base p3) in *.
  assert (r1 = after_spawn m os hProcess hThread (spawned c hProcess hThread p3))
    as E1
    by exact (run_spawned m args os p image Himage Hne Hpin Hfit Hattrs
                hProcess hThread Hcp).
  set (q := final r1) in *.
  assert (p_env q = p_env p3) as Henv
    by (subst q; rewrite E1; apply env_after_spawn).
  assert (p_cwd q = base) as Hcwd.
  { subst q. rewrite E1, cwd_after_spawn. subst p3.
    now rewrite cwd_env_prepared. }
  assert (p_children q = p_children p ++ [c]) as Hchildren.
  { subst q. rewrite E1, children_after_spawn. subst p3.
    now rewrite children_env_prepared. }
  set (p3' := env_prepared os base (pinned image q)).
  assert (p_env p3' = p_env p3) as Henv'.
  { subst p3' p3. apply env_prepared_twice. now rewrite env_pinned. }
  assert (p_cwd p3' = p_cwd p3) as Hcwd'.
  { subst p3' p3. now rewrite !cwd_env_prepared. }
  assert (child_of m base p3' = c) as Hchild
    by (subst c; now apply child_of_eq).
  assert (r2 = after_spawn m os hProcess hThread
                 (spawned c hProcess hThread p3')) as E2.
  { subst r2. rewrite <- Hchild in Hcp |- *.
    exact (run_spawned m args' os q image Himage Hne Hpin Hfit Hattrs
             hProcess hThread Hcp). }
  assert (created p r1 = [c]) as Hc1.
  { rewrite E1. subst p3. apply created_after_spawn, children_env_prepared. }
  rewrite Hc1, E2.
  rewrite E1, exit_after_spawn in Hexit.
  split; [rewrite exit_after_spawn; exact Hexit|].
  split; [subst p3'; apply created_after_spawn, children_env_prepared|].
  split.
  { rewrite children_after_spawn. subst p3'.
    rewrite children_env_prepared, Hchildren. now rewrite <- app_assoc. }
  split; [subst p3'; apply shown_after_spawn, out_env_prepared|].
  split.
  - rewrite cwd_after_spawn, Hcwd', Hcwd. subst p3.
    now rewrite cwd_env_prepared.
  - now rewrite env_after_spawn, Henv', Henv.
Qed.

(** ** The shipped copy *)

(** X15. The copy of the launcher shipped under [dist_output] is the release
    build of [dist_tools/launcher.c]: for all arguments, in every process and
    on every system the two run alike, so whatever holds of the release build
    holds of the shipped copy. *)
Theorem shipped_copy_is_release_build
    hInstance hPrevInstance lpCmdLine nCmdShow args os p :
  dist_output.WinMain hInstance hPrevInstance lpCmdLine nCmdShow os p
  = launcher Release args os p.
Proof. reflexivity. Qed.

(** ** The error code in the report *)

Lemma as_int_large (n : Z) : 2 ^ 31 <= n < 2 ^ 32 -> as_int n = n - 2 ^ 32.
Proof.
  intros H. unfold as_int.
  replace (n + 2 ^ 31) with ((n - 2 ^ 31) + 1 * 2 ^ 32) by lia.
  rewrite Z.mod_add by lia. rewrite Z.mod_small; lia.
Qed.

Lemma pretty_negative (z : Z) : 0 < z -> pretty (- z) = "-" +:+ pretty z.
Proof. destruct z; [lia | reflexivity | lia]. Qed.

(** X16. The error code is a [DWORD] printed with [%d].  A code of [2^31] or
    more is therefore shown as a negative number: the report of a failed
    process creation carries a minus sign and [2^32] less the code. *)
Theorem large_error_code_shown_negative m args os p image code :
  let base := base_directory (image_buffer image) in
  os_GetModuleFileName os = Succeeds image ->
  image <> EmptyString ->
  os_SetCurrentDirectory os base = Succeeds tt ->
  (String.length (interpreter_path m base) < MAX_PATH)%nat ->
  attributes os (interpreter_path m base) <> INVALID_FILE_ATTRIBUTES ->
  os_CreateProcess os (child_of m base (env_prepared os base (pinned image p)))
  = Fails code ->
  2 ^ 31 <= code < 2 ^ 32 ->
  shown p (launcher m args os p)
  = report m ("Failed to launch process." +:+ nl +:+ "Error code: -"
              +:+ pretty (2 ^ 32 - code)).
Proof.
  intros base Himage Hne Hpin Hfit Hattrs Hcp Hcode.
  rewrite (run_spawn_failed m args os p image Himage Hne Hpin Hfit Hattrs
             code Hcp).
  rewrite (shown_reported m _ 1 p) by apply out_env_prepared.
  unfold launch_failed_text. rewrite as_int_large by exact Hcode.
  replace (code - 2 ^ 32) with (- (2 ^ 32 - code)) by lia.
  rewrite pretty_negative by lia. reflexivity.
Qed.

(** ** Further runs *)

Lemma child_inherits_launcher_state_witness :
  exists c,
    c ∈ created app_proc (launcher Release no_args app_os app_proc)
    /\ ch_inherit c = FALSE
    /\ ch_flags c = CREATE_NO_WINDOW
    /\ ch_cwd c = "C:\app\"
    /\ ch_env c !! "PYTHONPATH" = Some "C:\app\site_packages;C:\app\".
Proof.
  pose (c := child_of Release "C:\app\"
               (env_prepared app_os "C:\app\"
                  (pinned "C:\app\run.exe" app_proc))).
  assert (c ∈ created app_proc (launcher Release no_args app_os app_proc))
    as Hin by (change (c ∈ [c]); apply list_elem_of_here).
  destruct (child_inherits_launcher_state Release no_args app_os app_proc
              c Hin) as (_ & Hinherit & Hflags & Henv & Hcwd).
  exists c. split; [exact Hin|]. split; [exact Hinherit|].
  split; [exact Hflags|]. split; [exact Hcwd|].
  rewrite Henv. reflexivity.
Defined.

Lemma blocked_only_on_child_witness :
  exists p',
    launcher Debug no_args server_os app_proc = Stuck Blocked p'
    /\ shown app_proc (launcher Debug no_args server_os app_proc) = [].
Proof.
  exists (final (launcher Debug no_args server_os app_proc)).
  split; [reflexivity|].
  destruct (blocked_only_on_child Debug no_args server_os app_proc
              (final (launcher Debug no_args server_os app_proc)) eq_refl)
    as (_ & c & hP & hT & _ & _ & _ & Hshown & _).
  exact Hshown.
Defined.

Lemma overrun_only_in_pythonPath_witness :
  exists buffer p',
    launcher Release no_args deep_os app_proc = Stuck (Overrun buffer) p'
    /\ buffer = "pythonPath".
Proof.
  exists "pythonPath", (final (launcher Release no_args deep_os app_proc)).
  split; [reflexivity|].
  exact (proj1 (overrun_only_in_pythonPath Release no_args deep_os app_proc
                  "pythonPath"
                  (final (launcher Release no_args deep_os app_proc))
                  eq_refl)).
Defined.

Lemma self_location_failure_reported_witness :
  os_GetModuleFileName unlocated_os = Fails 8
  /\ exit_code (launcher Release no_args unlocated_os app_proc) = Some 1
  /\ shown app_proc (launcher Release no_args unlocated_os app_proc)
     = [Dialog "Failed to get executable path." "Error" 16].
Proof.
  split; [reflexivity|].
  destruct (self_location_failure_reported Release no_args unlocated_os
              app_proc (or_introl (ex_intro _ 8 eq_refl)))
    as (Hexit & Hshown & _).
  split; [exact Hexit | exact Hshown].
Defined.

Lemma pin_failure_reported_witness :
  exit_code (launcher Release no_args unpinned_os app_proc) = Some 1
  /\ shown app_proc (launcher Release no_args unpinned_os app_proc)
     = [Dialog "Failed to set current directory." "Error" 16]
  /\ p_cwd (final (launcher Release no_args unpinned_os app_proc)) = "D:\".
Proof.
  destruct (pin_failure_reported Release no_args unpinned_os app_proc
              "C:\app\run.exe" 5 eq_refl ltac:(discriminate) eq_refl)
    as (Hexit & Hshown & _ & _ & Hcwd & _).
  split; [exact Hexit|]. split; [exact Hshown | exact Hcwd].
Defined.

Lemma only_interpreter_checked_witness :
  os_GetFileAttributes interpreter_only_os "C:\app\boot.py" = Fails 2
  /\ launcher Release no_args interpreter_only_os app_proc
     = launcher Release no_args app_os app_proc.
Proof.
  split; [reflexivity|].
  apply (only_interpreter_checked Release no_args app_os app_proc
           (os_GetFileAttributes interpreter_only_os)).
  intros image [= <-]. reflexivity.
Defined.

Lemma image_in_base_directory_witness :
  exists name,
    "C:\app\run.exe" = base_directory (image_buffer "C:\app\run.exe") +:+ name
    /\ slash_free name = true.
Proof.
  apply (image_in_base_directory "C:\app\run.exe"). vm_compute. lia.
Defined.

Lemma long_image_path_cut_witness :
  String.length long_image = 300%nat
  /\ exit_code (launcher Release no_args long_os app_proc)
     = exit_code (launcher Release no_args
                    (with_image (substring 0 (MAX_PATH - 1) long_image) long_os)
                    app_proc).
Proof.
  split; [reflexivity|].
  exact (proj1 (proj2 (long_image_path_cut Release no_args long_os app_proc
                         long_image eq_refl ltac:(vm_compute; lia)))).
Defined.

Lemma relaunch_repeats_witness :
  created (final (launcher Release no_args app_os app_proc))
          (launcher Release no_args app_os
             (final (launcher Release no_args app_os app_proc)))
  = created app_proc (launcher Release no_args app_os app_proc).
Proof.
  exact (proj1 (proj2 (relaunch_repeats Release no_args no_args app_os
                         app_proc "C:\app\run.exe" 100 104 eq_refl
                         ltac:(discriminate) eq_refl ltac:(vm_compute; lia)
                         ltac:(vm_compute; discriminate) eq_refl eq_refl))).
Defined.

Lemma large_error_code_shown_negative_witness :
  shown app_proc (launcher Release no_args odd_code_os app_proc)
  = [Dialog ("Failed to launch process." +:+ nl +:+ "Error code: -1")
            "Error" 16].
Proof.
  exact (large_error_code_shown_negative Release no_args odd_code_os app_proc
           "C:\app\run.exe" 4294967295 eq_refl ltac:(discriminate) eq_refl
           ltac:(vm_compute; lia) ltac:(vm_compute; discriminate) eq_refl
           ltac:(lia)).
Defined.
